(** * langgraph-chatbot: routing, retrieval adapters, combine step and memory

    A shallow embedding of the Python sources
      - src/agents/chat_agent.py      (router, workflow nodes, [chat])
      - src/agents/search_agent.py    (search adapter)
      - src/agents/document_agent.py  (document adapter)
      - src/utils/memory_manager.py   (conversation memory, session store)
      - src/api/main.py               (HTTP endpoints that own the agents)
      - src/config/settings.py        (defaults)

    Conventions of the model.
      - A Python [str] is a Rocq [string]; a character is one [ascii].  The
        string methods used by the code ([upper], [strip], [in], slicing,
        [len]) are written out below for that alphabet, with the case
        mapping and the blanks of ASCII; other characters are left as they
        are.
      - A call that may raise returns an [Outcome]; [try]/[except] is a
        [match] on it.
      - The external collaborators (language model, search provider, vector
        index, clock) are fields of an environment [Env]; each call to one of
        them is appended to a chronological log of [Event]s, threaded through
        the code by the monad [M].
      - Relevance scores are IEEE binary64 numbers ([PrimFloat.float]), so
        [score < 0.8] is the comparison Python performs. *)

From Stdlib Require Import Ascii String ZArith Floats.
From stdpp Require Import base strings list gmap pretty.

Local Open Scope string_scope.
Local Open Scope list_scope.

(** Decimal literals such as [0.8] denote the nearest binary64 number, as
    they do in Python. *)
#[local] Set Warnings "-inexact-float".

(** ** Python string primitives *)

Module Py.

Definition dquote : string := String (ascii_of_nat 34) EmptyString.
Definition nl : string := String (ascii_of_nat 10) EmptyString.

(** [c.isupper()] / [c.islower()] restricted to the 8-bit alphabet. *)
Definition is_lower (c : ascii) : bool :=
  (97 <=? nat_of_ascii c)%nat && (nat_of_ascii c <=? 122)%nat.

Definition upper_char (c : ascii) : ascii :=
  if is_lower c then ascii_of_nat (nat_of_ascii c - 32) else c.

(** [s.upper()] *)
Fixpoint upper (s : string) : string :=
  match s with
  | EmptyString => EmptyString
  | String c s' => String (upper_char c) (upper s')
  end.

(** [c.isspace()]: TAB, LF, VT, FF, CR, FS, GS, RS, US and SPACE. *)
Definition isspace (c : ascii) : bool :=
  let n := nat_of_ascii c in
  ((9 <=? n)%nat && (n <=? 13)%nat) || ((28 <=? n)%nat && (n <=? 32)%nat).

Fixpoint lstrip (s : string) : string :=
  match s with
  | EmptyString => EmptyString
  | String c s' => if isspace c then lstrip s' else s
  end.

Fixpoint rstrip (s : string) : string :=
  match s with
  | EmptyString => EmptyString
  | String c s' =>
      match rstrip s' with
      | EmptyString => if isspace c then EmptyString else String c EmptyString
      | r => String c r
      end
  end.

(** [s.strip()] *)
Definition strip (s : string) : string := rstrip (lstrip s).

(** [needle in hay] *)
Fixpoint contains (needle hay : string) : bool :=
  String.prefix needle hay ||
  match hay with
  | EmptyString => false
  | String _ hay' => contains needle hay'
  end.

(** [s[:n]] for a non-negative [n] *)
Fixpoint take (n : nat) (s : string) : string :=
  match n, s with
  | S n', String c s' => String c (take n' s')
  | _, _ => EmptyString
  end.

(** Truthiness of a string: [if s] holds for the non-empty ones. *)
Definition truthy (s : string) : bool :=
  match s with EmptyString => false | _ => true end.

(** [str(b)] for a [bool] *)
Definition str_bool (b : bool) : string := if b then "True" else "False".

(** [str(n)] for an [int] *)
Definition str_int (n : Z) : string := pretty n.

(** A keyword that starts with a non-blank character. *)
Definition starts_nonspace (kw : string) : bool :=
  match kw with
  | EmptyString => false
  | String a _ => negb (isspace a)
  end.

(** A keyword that ends with a non-blank character. *)
Fixpoint ends_nonspace (kw : string) : bool :=
  match kw with
  | EmptyString => false
  | String a EmptyString => negb (isspace a)
  | String _ kw' => ends_nonspace kw'
  end.

(** [c.lower()] on the letters of ASCII. *)
Definition to_lower_char (c : ascii) : ascii :=
  if ((65 <=? nat_of_ascii c)%nat && (nat_of_ascii c <=? 90)%nat)
  then ascii_of_nat (nat_of_ascii c + 32) else c.

(** [s.lower()] *)
Fixpoint lower (s : string) : string :=
  match s with
  | EmptyString => EmptyString
  | String c s' => String (to_lower_char c) (lower s')
  end.

(** [s.endswith(suffix)] *)
Fixpoint endswith (s suffix : string) : bool :=
  String.eqb s suffix ||
  match s with
  | EmptyString => false
  | String _ s' => endswith s' suffix
  end.

End Py.

(** ** Exceptions, collaborators and the effect log *)

(** Result of a call that may raise: [Raise msg] carries [str(e)]. *)
Inductive Outcome (A : Type) : Type :=
  | Ok (a : A)
  | Raise (msg : string).
Arguments Ok {A} a.
Arguments Raise {A} msg.

(** src/config/settings.py: the options the modelled code reads. *)
Record Settings := {
  max_search_results : Z;
  memory_window : Z
}.

Definition default_settings : Settings :=
  {| max_search_results := 5; memory_window := 10 |}.

(** One hit of the search provider: a dict read with
    [result.get("title", ...)], [.get("url", ...)], [.get("content", ...)]. *)
Record SearchHit := {
  hit_title : option string;
  hit_url : option string;
  hit_content : option string
}.

(** A [langchain.schema.Document]: [page_content] and the metadata keys the
    code reads with [doc.metadata.get(key, default)]. *)
Record Document := {
  page_content : string;
  md_source : option string;
  md_chunk_id : option Z;
  md_file_type : option string
}.

(** An entry of a [sources] list: the dict built by the search adapter
    (title, url, snippet) or by [_prepare_sources]. *)
Inductive Source : Type :=
  | WebSource (title url snippet : string)
  | DocSource (source : string) (chunk_id : Z) (file_type : string)
              (relevance_score : float) (preview : string).

Definition is_doc_source (s : Source) : bool :=
  match s with DocSource _ _ _ _ _ => true | WebSource _ _ _ => false end.

Definition is_web_source (s : Source) : bool :=
  match s with WebSource _ _ _ => true | DocSource _ _ _ _ _ => false end.

(** The dict returned by an adapter.  [success], [response] and [sources]
    are always present in the dicts the adapters build; the dicts built in
    the [except] branches of [search_node] and [document_node] have no
    "sources" key, which readers turn into [[]] with [.get("sources", [])].
    [documents_found] and [search_performed] are present in some dicts only. *)
Record ResultDict := {
  success : bool;
  response : string;
  sources : list Source;
  documents_found : option bool;
  search_performed : option bool
}.

(** An effect of the program, in the order it happens: a call to an external
    collaborator, or an append to the conversation memory. *)
Inductive Event : Type :=
  | EvCollectionInfo
  | EvTavilySearch (query : string) (max_results : Z)
  | EvSimilaritySearch (query : string) (k : Z)
  | EvLLM (prompt : string)
  | EvAddUserMessage (message : string)
  | EvAddAIMessage (message : string).

(** The collaborators of one [chat] call. *)
Record Env := {
  settings : Settings;
  (** [collection.count()] of the Chroma collection *)
  chroma_count : Outcome Z;
  (** [vector_store.similarity_search_with_score(query, k=k)] *)
  chroma_search : string -> Z -> Outcome (list (Document * float));
  (** [tavily_client.search(query=..., max_results=...)].get("results", []) *)
  tavily_search : string -> Z -> Outcome (list SearchHit);
  (** [llm.invoke(prompt).content] *)
  llm_invoke : string -> Outcome string;
  (** [datetime.now().isoformat()], as a function of the number of effects
      that happened before the call *)
  clock : nat -> string
}.

(** State monad over the chronological effect log. *)
Definition M (A : Type) : Type := list Event -> A * list Event.

Definition ret {A} (a : A) : M A := fun log => (a, log).

Definition bind {A B} (m : M A) (f : A -> M B) : M B :=
  fun log => let (a, log') := m log in f a log'.

Definition emit (e : Event) : M unit := fun log => (tt, log ++ [e]).

Definition log_length : M nat := fun log => (length log, log).

Notation "x <- c ;; k" := (bind c (fun x => k))
  (at level 100, c at next level, right associativity).
Notation "c ;;; k" := (bind c (fun _ => k))
  (at level 100, right associativity).

(** ** src/utils/vector_store.py *)

Module VectorStoreManager.

(** [similarity_search_with_score]: an error of the index is logged and
    turned into the empty list. *)
Definition similarity_search_with_score (env : Env) (query : string) (k : Z)
  : M (list (Document * float)) :=
  emit (EvSimilaritySearch query k) ;;;
  ret (match chroma_search env query k with
       | Ok results => results
       | Raise _ => []
       end).

(** [get_collection_info]: the "count" entry of the returned dict, [None]
    for the empty dict returned on error. *)
Definition get_collection_info (env : Env) : M (option Z) :=
  emit EvCollectionInfo ;;;
  ret (match chroma_count env with
       | Ok n => Some n
       | Raise _ => None
       end).

(** [add_documents]: [vector_store.add_documents(documents)] followed by
    [persist()], given as one call [chroma_add] that returns the ids; an
    error is logged and raised again. *)
Definition add_documents (chroma_add : list Document -> Outcome (list string))
    (documents : list Document) : Outcome (list string) :=
  match chroma_add documents with
  | Ok ids => Ok ids
  | Raise e => Raise e
  end.

End VectorStoreManager.

(** ** src/agents/search_agent.py *)

Module SearchAgent.
Import Py.

Definition search_prompt_format (query search_results : string) : string :=
  " Based on the user's query and the search results below, provide a comprehensive and accurate answer." +:+ nl +:+
  "            User Query: " +:+ query +:+ nl +:+
  "            Search Results: " +:+ search_results +:+ nl +:+
  "            Please provide a well-structured response that:" +:+ nl +:+
  "            1. Directly answers the user's question" +:+ nl +:+
  "            2. Includes relevant information from the search results" +:+ nl +:+
  "            3. Cites sources when appropriate" +:+ nl +:+
  "            4. Is clear and concise" +:+ nl +:+
  "            Response: ".

(** [_perform_search]: a provider error is logged and becomes [[]]. *)
Definition _perform_search (env : Env) (query : string) : M (list SearchHit) :=
  emit (EvTavilySearch query (max_search_results (settings env))) ;;;
  ret (match tavily_search env query (max_search_results (settings env)) with
       | Ok results => results
       | Raise _ => []
       end).

(** [_format_search_results], with [i] the value of the [enumerate]
    counter at the head of [results]. *)
Fixpoint _format_search_results_from (i : Z) (results : list SearchHit) : string :=
  match results with
  | [] => ""
  | result :: rest =>
      let title := default "Untitled" (hit_title result) in
      let content := default "No content available" (hit_content result) in
      let url := default "" (hit_url result) in
      (str_int i +:+ ". Title: " +:+ title +:+ nl +:+
       " URL: " +:+ url +:+ nl +:+
       " Content: " +:+ content +:+ nl +:+ nl)
      +:+ _format_search_results_from (i + 1) rest
  end.

Definition _format_search_results (results : list SearchHit) : string :=
  _format_search_results_from 1 results.

(** The dict of the list comprehension that extracts the sources. *)
Definition source_of_hit (result : SearchHit) : Source :=
  WebSource (default "" (hit_title result))
            (default "" (hit_url result))
            (take 200 (default "" (hit_content result)) +:+ "...").

Definition search_and_respond (env : Env) (query : string) : M ResultDict :=
  search_results <- _perform_search env query ;;
  match search_results with
  | [] =>
      ret {| success := false;
             response := "I couldn't find relevant information for your query. Please try rephrasing your question.";
             sources := [];
             documents_found := None;
             search_performed := None |}
  | _ =>
      let formatted_results := _format_search_results search_results in
      let prompt := search_prompt_format query formatted_results in
      emit (EvLLM prompt) ;;;
      match llm_invoke env prompt with
      | Ok content =>
          ret {| success := true;
                 response := strip content;
                 sources := map source_of_hit search_results;
                 documents_found := None;
                 search_performed := Some true |}
      | Raise e =>
          ret {| success := false;
                 response := "I encountered an error while searching: " +:+ e;
                 sources := [];
                 documents_found := None;
                 search_performed := Some false |}
      end
  end.

Definition search_indicators : list string :=
  ["what is"; "who is"; "when did"; "where is"; "how to";
   "latest"; "recent"; "current"; "news"; "update"; "weather";
   "stock price"; "market"; "today"; "happening now"; "breaking"].

(** [should_search]: [any(indicator in query_lower for indicator in ...)];
    the [context] argument is not read. *)
Definition should_search (query context : string) : bool :=
  let query_lower := lower query in
  existsb (fun indicator => contains indicator query_lower) search_indicators.

End SearchAgent.

(** ** src/agents/document_agent.py *)

Module DocumentAgent.
Import Py.

Definition document_prompt_format (query context chat_history : string) : string :=
  " You are a helpful assistant that answers questions based on uploaded documents and conversation history." +:+ nl +:+
  "            Chat History: " +:+ chat_history +:+ nl +:+
  "            Context from Documents: " +:+ context +:+ nl +:+
  "            User Question: " +:+ query +:+ nl +:+
  "            Please provide a comprehensive answer based on the document context. If the information is not available in the documents, clearly state that. Always cite which document or section your information comes from when possible." +:+ nl +:+
  "            Answer: ".

(** The literal [0.8] of the relevance filter. *)
Definition relevance_threshold : float := 0.8%float.

(** The condition [score < 0.8] of the list comprehension. *)
Definition relevant (doc_score : Document * float) : bool :=
  PrimFloat.ltb (snd doc_score) relevance_threshold.

Fixpoint _prepare_context_from (i : Z) (docs_with_scores : list (Document * float)) : string :=
  match docs_with_scores with
  | [] => ""
  | (doc, score) :: rest =>
      let source := default "Unknown" (md_source doc) in
      let chunk_id := default 0%Z (md_chunk_id doc) in
      ("Document " +:+ str_int i +:+ " (Source: " +:+ source +:+ ", Chunk: "
         +:+ str_int chunk_id +:+ "):" +:+ nl +:+
       page_content doc +:+ nl +:+ nl)
      +:+ _prepare_context_from (i + 1) rest
  end.

Definition _prepare_context (docs_with_scores : list (Document * float)) : string :=
  _prepare_context_from 1 docs_with_scores.

(** The [source_info] dict of one iteration of [_prepare_sources]. *)
Definition source_info (doc_score : Document * float) : Source :=
  let (doc, score) := doc_score in
  DocSource (default "Unknown" (md_source doc))
            (default 0%Z (md_chunk_id doc))
            (default "unknown" (md_file_type doc))
            score
            (if (200 <? String.length (page_content doc))%nat
             then take 200 (page_content doc) +:+ "..."
             else page_content doc).

Fixpoint _prepare_sources (docs_with_scores : list (Document * float)) : list Source :=
  match docs_with_scores with
  | [] => []
  | doc_score :: rest => source_info doc_score :: _prepare_sources rest
  end.

Definition query_documents (env : Env) (query chat_history : string) : M ResultDict :=
  relevant_docs <- VectorStoreManager.similarity_search_with_score env query 5 ;;
  match relevant_docs with
  | [] =>
      ret {| success := true;
             response := "I don't have any relevant documents to answer your question. Please upload some documents first.";
             sources := [];
             documents_found := Some false;
             search_performed := None |}
  | _ =>
      let filtered_docs := List.filter relevant relevant_docs in
      match filtered_docs with
      | [] =>
          ret {| success := true;
                 response := "I couldn't find sufficiently relevant information in the uploaded documents to answer your question.";
                 sources := [];
                 documents_found := Some true;
                 search_performed := None |}
      | _ =>
          let context := _prepare_context filtered_docs in
          let prompt := document_prompt_format query context chat_history in
          emit (EvLLM prompt) ;;;
          match llm_invoke env prompt with
          | Ok content =>
              ret {| success := true;
                     response := strip content;
                     sources := _prepare_sources filtered_docs;
                     documents_found := Some true;
                     search_performed := None |}
          | Raise e =>
              ret {| success := false;
                     response := "Error accessing documents: " +:+ e;
                     sources := [];
                     documents_found := Some false;
                     search_performed := None |}
          end
      end
  end.

Definition has_documents (env : Env) : M bool :=
  info <- VectorStoreManager.get_collection_info env ;;
  ret (0 <? default 0 info)%Z.

(** The dict returned by [add_documents]. *)
Record AddResult := {
  add_success : bool;
  add_message : string;
  document_ids : list string
}.

Definition add_documents (chroma_add : list Document -> Outcome (list string))
    (documents : list Document) : AddResult :=
  match VectorStoreManager.add_documents chroma_add documents with
  | Ok ids =>
      {| add_success := true;
         add_message := "Successfully added "
                        +:+ str_int (Z.of_nat (length documents))
                        +:+ " document chunks";
         document_ids := ids |}
  | Raise e =>
      {| add_success := false;
         add_message := "Error adding documents: " +:+ e;
         document_ids := [] |}
  end.

End DocumentAgent.

(** ** src/utils/memory_manager.py *)

(** [langchain.schema.BaseMessage] and the subclasses the code tests for. *)
Inductive BaseMessage : Type :=
  | HumanMessage (content : string)
  | AIMessage (content : string)
  | SystemMessage (content : string).

(** [ConversationBufferWindowMemory(k=..., return_messages=True)] of the
    langchain library: [chat_memory.messages] is the whole list of messages;
    the window [k] (here [mem_k]) is applied by [load_memory_variables] only. *)
Record ConversationBufferWindowMemory := {
  mem_k : Z;
  chat_memory_messages : list BaseMessage
}.

(** An entry of [_message_history]. *)
Record HistoryEntry := {
  entry_type : string;
  entry_content : string;
  entry_timestamp : string
}.

Record ConversationMemoryManager := {
  mm_session_id : string;
  memory : ConversationBufferWindowMemory;
  _message_history : list HistoryEntry
}.

Record SessionSummary := {
  summary_session_id : string;
  message_count : nat;
  last_activity : option string
}.

Module MemoryManager.
Import Py.

(** [ConversationMemoryManager.__init__] *)
Definition init (cfg : Settings) (session_id : string) : ConversationMemoryManager :=
  {| mm_session_id := session_id;
     memory := {| mem_k := memory_window cfg; chat_memory_messages := [] |};
     _message_history := [] |}.

Definition _get_timestamp (env : Env) : M string :=
  n <- log_length ;; ret (clock env n).

Definition add_user_message (env : Env) (self : ConversationMemoryManager)
    (message : string) : M ConversationMemoryManager :=
  emit (EvAddUserMessage message) ;;;
  timestamp <- _get_timestamp env ;;
  ret {| mm_session_id := mm_session_id self;
         memory := {| mem_k := mem_k (memory self);
                      chat_memory_messages :=
                        chat_memory_messages (memory self) ++ [HumanMessage message] |};
         _message_history :=
           _message_history self ++
           [{| entry_type := "human"; entry_content := message;
               entry_timestamp := timestamp |}] |}.

Definition add_ai_message (env : Env) (self : ConversationMemoryManager)
    (message : string) : M ConversationMemoryManager :=
  emit (EvAddAIMessage message) ;;;
  timestamp <- _get_timestamp env ;;
  ret {| mm_session_id := mm_session_id self;
         memory := {| mem_k := mem_k (memory self);
                      chat_memory_messages :=
                        chat_memory_messages (memory self) ++ [AIMessage message] |};
         _message_history :=
           _message_history self ++
           [{| entry_type := "ai"; entry_content := message;
               entry_timestamp := timestamp |}] |}.

(** [get_conversation_history]: [self.memory.chat_memory.messages] *)
Definition get_conversation_history (self : ConversationMemoryManager)
  : list BaseMessage :=
  chat_memory_messages (memory self).

(** One iteration of the loop of [get_formatted_history]. *)
Definition format_message (message : BaseMessage) : string :=
  match message with
  | HumanMessage content => "Human: " +:+ content +:+ nl
  | AIMessage content => "Assistant: " +:+ content +:+ nl
  | SystemMessage _ => ""
  end.

Definition get_formatted_history (self : ConversationMemoryManager) : string :=
  fold_left (fun formatted_history message =>
               formatted_history +:+ format_message message)
            (get_conversation_history self) "".

(** [messages[-n:]] for [n > 0]: the last [n] elements. *)
Definition last_n {A} (n : nat) (l : list A) : list A :=
  drop (length l - n) l.

(** [get_memory_variables]: [memory.load_memory_variables({})], whose
    "chat_history" entry is [messages[-k * 2:] if k > 0 else []]. *)
Definition get_memory_variables (self : ConversationMemoryManager)
  : list BaseMessage :=
  if (0 <? mem_k (memory self))%Z
  then last_n (Z.to_nat (mem_k (memory self) * 2))
              (chat_memory_messages (memory self))
  else [].

Definition clear_memory (self : ConversationMemoryManager)
  : ConversationMemoryManager :=
  {| mm_session_id := mm_session_id self;
     memory := {| mem_k := mem_k (memory self); chat_memory_messages := [] |};
     _message_history := [] |}.

Definition get_session_summary (self : ConversationMemoryManager)
  : SessionSummary :=
  {| summary_session_id := mm_session_id self;
     message_count := length (_message_history self);
     last_activity := entry_timestamp <$> last (_message_history self) |}.

End MemoryManager.

(** [MemoryStore]: the process-wide dict from session identifier to memory
    manager (the order of the keys is not modelled). *)
Module MemoryStore.

Definition init : gmap string ConversationMemoryManager := ∅.

Definition get_session_memory (cfg : Settings)
    (self : gmap string ConversationMemoryManager) (session_id : string)
  : ConversationMemoryManager * gmap string ConversationMemoryManager :=
  match self !! session_id with
  | Some mm => (mm, self)
  | None =>
      let mm := MemoryManager.init cfg session_id in
      (mm, <[session_id := mm]> self)
  end.

Definition clear_session (self : gmap string ConversationMemoryManager)
    (session_id : string) : gmap string ConversationMemoryManager :=
  match self !! session_id with
  | Some _ => delete session_id self
  | None => self
  end.

Definition get_active_sessions (self : gmap string ConversationMemoryManager)
  : list string :=
  (map_to_list self).*1.

End MemoryStore.

(** ** src/agents/chat_agent.py *)

(** The [ChatState] dict threaded through the workflow.  [search_results]
    and [document_results] start as the empty dict, here [None]. *)
Record ChatState := {
  st_query : string;
  st_response : string;
  st_chat_history : string;
  st_needs_search : bool;
  st_needs_documents : bool;
  st_search_results : option ResultDict;
  st_document_results : option ResultDict;
  st_final_response : string;
  st_sources : list Source
}.

(** The value returned by the conditional entry point. *)
Inductive Route : Type := RSearch | RDocuments | RBoth | RDirect.

Definition route_name (r : Route) : string :=
  match r with
  | RSearch => "search"
  | RDocuments => "documents"
  | RBoth => "both"
  | RDirect => "direct"
  end.

(** The dict returned by [ChatAgent.chat]. *)
Record ChatResult := {
  res_success : bool;
  res_response : string;
  res_sources : list Source;
  res_session_id : string
}.

Record ChatAgent := {
  session_id : string;
  memory_manager : ConversationMemoryManager
}.

Module Agent.
Import Py.

(** [ChatAgent.__init__]: a new memory manager for the session. *)
Definition init (cfg : Settings) (sid : string) : ChatAgent :=
  {| session_id := sid; memory_manager := MemoryManager.init cfg sid |}.

Definition routing_prompt_format (query chat_history : string)
    (has_documents : bool) : string :=
  " Analyze the user's query and determine what actions are needed." +:+ nl +:+
  "            Chat History: " +:+ chat_history +:+ nl +:+
  "            User Query: " +:+ query +:+ nl +:+
  "            Available Documents: " +:+ str_bool has_documents +:+ nl +:+
  nl +:+
  "            Determine if the query needs:" +:+ nl +:+
  "            1. Internet search (for current information, facts, news, general knowledge)" +:+ nl +:+
  "            2. Document search (for information from uploaded documents)" +:+ nl +:+
  "            3. Direct response (for casual conversation, greetings, simple questions)" +:+ nl +:+
  nl +:+
  "            Respond with exactly one of: "
    +:+ dquote +:+ "SEARCH" +:+ dquote +:+ ", "
    +:+ dquote +:+ "DOCUMENTS" +:+ dquote +:+ ", "
    +:+ dquote +:+ "DIRECT" +:+ dquote +:+ ", "
    +:+ dquote +:+ "BOTH" +:+ dquote +:+ nl +:+
  "            Decision: ".

Definition final_prompt_format (query chat_history search_info document_info : string)
  : string :=
  " You are a helpful AI assistant. Based on the information gathered, provide a comprehensive response to the user's query." +:+ nl +:+
  "            Chat History: " +:+ chat_history +:+ nl +:+
  "            User Query: " +:+ query +:+ nl +:+
  "            Search Information: " +:+ search_info +:+ nl +:+
  "            Document Information: " +:+ document_info +:+ nl +:+
  nl +:+
  "            Provide a helpful, accurate, and well-structured response. If you used multiple sources, integrate the information coherently. Always be honest about the limitations of your knowledge." +:+ nl +:+
  "            Response: ".

Definition direct_prompt (chat_history query : string) : string :=
  " Based on the conversation history, provide a helpful response to the user's query." +:+ nl +:+
  "Chat History: " +:+ chat_history +:+ nl +:+
  "User Query: " +:+ query +:+ nl +:+
  "Response: ".

(** The [if]/[elif] chain of [route_query] on the model's reply. *)
Definition classify (reply : string) : Route :=
  let decision := upper (strip reply) in
  if contains "SEARCH" decision then RSearch
  else if contains "DOCUMENTS" decision then RDocuments
  else if contains "BOTH" decision then RBoth
  else RDirect.

Definition route_query (env : Env) (state : ChatState) : M Route :=
  has_docs <- DocumentAgent.has_documents env ;;
  let prompt := routing_prompt_format (st_query state) (st_chat_history state) has_docs in
  emit (EvLLM prompt) ;;;
  match llm_invoke env prompt with
  | Ok content => ret (classify content)
  | Raise _ => ret RDirect
  end.

(** [search_node].  The adapter returns a dict on every path, so the
    [except] branch of the node is not reached. *)
Definition search_node (env : Env) (state : ChatState) : M ChatState :=
  search_results <- SearchAgent.search_and_respond env (st_query state) ;;
  ret {| st_query := st_query state;
         st_response := st_response state;
         st_chat_history := st_chat_history state;
         st_needs_search := true;
         st_needs_documents := st_needs_documents state;
         st_search_results := Some search_results;
         st_document_results := st_document_results state;
         st_final_response := st_final_response state;
         st_sources := st_sources state |}.

(** [document_node], likewise. *)
Definition document_node (env : Env) (state : ChatState) : M ChatState :=
  doc_results <- DocumentAgent.query_documents env (st_query state)
                   (st_chat_history state) ;;
  ret {| st_query := st_query state;
         st_response := st_response state;
         st_chat_history := st_chat_history state;
         st_needs_search := st_needs_search state;
         st_needs_documents := true;
         st_search_results := st_search_results state;
         st_document_results := Some doc_results;
         st_final_response := st_final_response state;
         st_sources := st_sources state |}.

Definition both_node (env : Env) (state : ChatState) : M ChatState :=
  state <- search_node env state ;;
  state <- document_node env state ;;
  ret state.

Definition set_final (state : ChatState) (final_response : string)
    (srcs : list Source) : ChatState :=
  {| st_query := st_query state;
     st_response := st_response state;
     st_chat_history := st_chat_history state;
     st_needs_search := st_needs_search state;
     st_needs_documents := st_needs_documents state;
     st_search_results := st_search_results state;
     st_document_results := st_document_results state;
     st_final_response := final_response;
     st_sources := srcs |}.

Definition apology : string :=
  "I apologize, but I encountered an error processing your request.".

(** [direct_response_node]: on failure only "final_response" is written. *)
Definition direct_response_node (env : Env) (state : ChatState) : M ChatState :=
  let prompt := direct_prompt (st_chat_history state) (st_query state) in
  emit (EvLLM prompt) ;;;
  match llm_invoke env prompt with
  | Ok content => ret (set_final state (strip content) [])
  | Raise _ => ret (set_final state apology (st_sources state))
  end.

(** The text and the sources [combine_results_node] takes from one
    adapter's entry of the state: those of the dict when
    [state.get(key, {}).get("success")] holds, nothing otherwise. *)
Definition info_of (r : option ResultDict) : string :=
  match r with
  | Some d => if success d then response d else ""
  | None => ""
  end.

Definition sources_of (r : option ResultDict) : list Source :=
  match r with
  | Some d => if success d then sources d else []
  | None => []
  end.

Definition combine_results_node (env : Env) (state : ChatState) : M ChatState :=
  let search_info := info_of (st_search_results state) in
  let document_info := info_of (st_document_results state) in
  let srcs := sources_of (st_search_results state)
              ++ sources_of (st_document_results state) in
  if negb (truthy search_info) && negb (truthy document_info)
  then direct_response_node env state
  else
    let prompt := final_prompt_format (st_query state) (st_chat_history state)
                    search_info document_info in
    emit (EvLLM prompt) ;;;
    match llm_invoke env prompt with
    | Ok content => ret (set_final state (strip content) srcs)
    | Raise _ => direct_response_node env state
    end.

(** The compiled workflow: the conditional entry point, then the edges
    search/documents/both -> combine -> END and direct -> END. *)
Definition graph_invoke (env : Env) (state : ChatState) : M ChatState :=
  route <- route_query env state ;;
  match route with
  | RSearch => state <- search_node env state ;; combine_results_node env state
  | RDocuments => state <- document_node env state ;; combine_results_node env state
  | RBoth => state <- both_node env state ;; combine_results_node env state
  | RDirect => direct_response_node env state
  end.

Definition initial_state (query chat_history : string) : ChatState :=
  {| st_query := query;
     st_response := "";
     st_chat_history := chat_history;
     st_needs_search := false;
     st_needs_documents := false;
     st_search_results := None;
     st_document_results := None;
     st_final_response := "";
     st_sources := [] |}.

(** [ChatAgent.chat].  No node of the workflow and no memory operation
    lets an exception escape, so the [except] branch (the only place that
    builds a dict with [success = False]) is not reached by a failure of a
    collaborator. *)
Definition chat (env : Env) (self : ChatAgent) (query : string)
  : M (ChatResult * ChatAgent) :=
  let chat_history := MemoryManager.get_formatted_history (memory_manager self) in
  result <- graph_invoke env (initial_state query chat_history) ;;
  let final_response := st_final_response result in
  let srcs := st_sources result in
  mm <- MemoryManager.add_user_message env (memory_manager self) query ;;
  mm <- MemoryManager.add_ai_message env mm final_response ;;
  ret ({| res_success := true;
          res_response := final_response;
          res_sources := srcs;
          res_session_id := session_id self |},
       {| session_id := session_id self; memory_manager := mm |}).

Definition clear_conversation (self : ChatAgent) : ChatAgent :=
  {| session_id := session_id self;
     memory_manager := MemoryManager.clear_memory (memory_manager self) |}.

Definition get_conversation_summary (self : ChatAgent) : SessionSummary :=
  MemoryManager.get_session_summary (memory_manager self).

(** A session façade serving a sequence of [chat] calls, each with the
    collaborators as they are at the time of the call. *)
Fixpoint chats (calls : list (Env * string)) (self : ChatAgent)
  : M (list ChatResult * ChatAgent) :=
  match calls with
  | [] => ret ([], self)
  | (env, query) :: rest =>
      step <- chat env self query ;;
      tail <- chats rest (snd step) ;;
      ret (fst step :: fst tail, snd tail)
  end.

End Agent.

(** ** src/utils/document_processor.py *)

(** What the processor reads from the outside: the texts of the pages of a
    PDF, of the paragraphs of a DOCX, the content of a text file, the
    [df.to_string(index=False)] of a table read by [pd.read_csv] or
    [pd.read_excel], [Path(file_path).name], and the text splitter. *)
Record FileReaders := {
  pdf_pages : string -> Outcome (list string);
  docx_paragraphs : string -> Outcome (list string);
  read_text : string -> Outcome string;
  read_csv : string -> Outcome string;
  read_excel : string -> Outcome string;
  path_name : string -> string;
  split_text : string -> list string
}.

Module DocumentProcessor.
Import Py.

(** The loop [text += page.extract_text() + "\n"]. *)
Definition join_lines (parts : list string) : string :=
  fold_left (fun text part => text +:+ (part +:+ nl)) parts "".

Definition _extract_pdf_text (fs : FileReaders) (file_path : string) : Outcome string :=
  match pdf_pages fs file_path with
  | Ok pages => Ok (join_lines pages)
  | Raise e => Raise e
  end.

Definition _extract_docx_text (fs : FileReaders) (file_path : string) : Outcome string :=
  match docx_paragraphs fs file_path with
  | Ok paragraphs => Ok (join_lines paragraphs)
  | Raise e => Raise e
  end.

Definition _extract_txt_text (fs : FileReaders) (file_path : string) : Outcome string :=
  read_text fs file_path.

Definition _extract_table_text (fs : FileReaders) (file_path : string) : Outcome string :=
  match (if endswith file_path ".csv"
         then read_csv fs file_path
         else read_excel fs file_path) with
  | Ok table => Ok (("Data from " +:+ path_name fs file_path +:+ ":" +:+ nl) +:+ table)
  | Raise e => Raise e
  end.

(** The documents built from the chunks, [i] being the value of the
    [enumerate] counter at the head of [chunks]. *)
Fixpoint documents_from (i : Z) (file_path file_extension : string)
    (chunks : list string) : list Document :=
  match chunks with
  | [] => []
  | chunk :: rest =>
      {| page_content := chunk;
         md_source := Some file_path;
         md_chunk_id := Some i;
         md_file_type := Some file_extension |}
      :: documents_from (i + 1) file_path file_extension rest
  end.

(** [process_file]; [file_extension] is [Path(file_path).suffix.lower()].
    Every exception is logged and raised again. *)
Definition process_file (fs : FileReaders) (file_path file_extension : string)
  : Outcome (list Document) :=
  match (if String.eqb file_extension ".pdf" then _extract_pdf_text fs file_path
         else if String.eqb file_extension ".docx" then _extract_docx_text fs file_path
         else if String.eqb file_extension ".txt" then _extract_txt_text fs file_path
         else if bool_decide (file_extension ∈ [".csv"; ".xlsx"])
              then _extract_table_text fs file_path
         else Raise ("Unsupported file type: " +:+ file_extension)) with
  | Ok text => Ok (documents_from 0 file_path file_extension (split_text fs text))
  | Raise e => Raise e
  end.

End DocumentProcessor.

(** ** src/api/main.py *)

Record ChatRequest := {
  req_query : string;
  req_session_id : string
}.

Module Api.

(** [POST /chat]: a [ChatAgent] is constructed for the request and dropped
    after it; the module-level [memory_store] is not consulted. *)
Definition chat_endpoint (env : Env)
    (memory_store : gmap string ConversationMemoryManager)
    (request : ChatRequest)
  : M (ChatResult * gmap string ConversationMemoryManager) :=
  let chat_agent := Agent.init (settings env) (req_session_id request) in
  step <- Agent.chat env chat_agent (req_query request) ;;
  ret (fst step, memory_store).

(** [GET /sessions] *)
Definition get_sessions (cfg : Settings)
    (memory_store : gmap string ConversationMemoryManager)
  : list SessionSummary :=
  map (fun sid =>
         MemoryManager.get_session_summary
           (fst (MemoryStore.get_session_memory cfg memory_store sid)))
      (MemoryStore.get_active_sessions memory_store).

(** [DELETE /sessions/{session_id}] *)
Definition clear_session
    (memory_store : gmap string ConversationMemoryManager)
    (sid : string) : gmap string ConversationMemoryManager :=
  MemoryStore.clear_session memory_store sid.

(** The server handling a sequence of [POST /chat] requests. *)
Fixpoint serve (requests : list (Env * ChatRequest))
    (memory_store : gmap string ConversationMemoryManager)
  : M (list ChatResult * gmap string ConversationMemoryManager) :=
  match requests with
  | [] => ret ([], memory_store)
  | (env, request) :: rest =>
      step <- chat_endpoint env memory_store request ;;
      tail <- serve rest (snd step) ;;
      ret (fst step :: fst tail, snd tail)
  end.

(** A handler's outcome: the response model, or an [HTTPException]. *)
Inductive HttpResult (A : Type) : Type :=
  | Http200 (body : A)
  | HttpError (status_code : Z) (detail : string).
Arguments Http200 {A} body.
Arguments HttpError {A} status_code detail.

Record FileUploadResponse := {
  up_success : bool;
  up_message : string;
  up_filename : string;
  up_chunks_created : nat
}.

Definition allowed_extensions : list string :=
  [".pdf"; ".docx"; ".txt"; ".csv"; ".xlsx"].

(** [POST /upload].  [file_extension] is
    [os.path.splitext(file.filename)[1].lower()], [allowed_repr] the text of
    [{allowed_extensions}], [file_path] the path the upload is saved under,
    [save] the outcome of writing it, and [path_extension] is
    [Path(file_path).suffix.lower()], the extension [process_file] reads. *)
Definition upload_file (fs : FileReaders)
    (chroma_add : list Document -> Outcome (list string))
    (allowed_repr : string) (save : Outcome unit)
    (filename file_extension file_path path_extension : string)
  : HttpResult FileUploadResponse :=
  if negb (bool_decide (file_extension ∈ allowed_extensions))
  then HttpError 400 ("Unsupported file type. Allowed: " +:+ allowed_repr)
  else
    match save with
    | Raise e => HttpError 500 e
    | Ok _ =>
        match DocumentProcessor.process_file fs file_path path_extension with
        | Raise e => HttpError 500 e
        | Ok documents =>
            let result := DocumentAgent.add_documents chroma_add documents in
            if DocumentAgent.add_success result
            then Http200 {| up_success := true;
                            up_message := "Successfully processed " +:+ filename;
                            up_filename := filename;
                            up_chunks_created := length documents |}
            else HttpError 500 (DocumentAgent.add_message result)
        end
    end.

End Api.

(** Projections of a source entry. *)
Definition source_snippet (s : Source) : option string :=
  match s with WebSource _ _ snippet => Some snippet | _ => None end.

Definition source_preview (s : Source) : option string :=
  match s with DocSource _ _ _ _ preview => Some preview | _ => None end.

(** ** Concrete collaborators used in the examples *)

Module Scenario.

(** A model that answers each kind of prompt with a fixed text; the reply
    to the routing prompt is [route_reply]. *)
Definition llm_fixed (route_reply : Outcome string) (prompt : string)
  : Outcome string :=
  if String.prefix " Analyze the user's query" prompt then route_reply
  else if String.prefix " You are a helpful AI assistant." prompt
       then Ok " combined answer "
  else if String.prefix " Based on the conversation history" prompt
       then Ok "direct answer"
  else if String.prefix " Based on the user's query" prompt
       then Ok "search answer"
  else Ok "document answer".

(** A model whose every call times out. *)
Definition llm_down (prompt : string) : Outcome string := Raise "timeout".

Definition mk_env (llm : string -> Outcome string)
    (hits : Outcome (list SearchHit))
    (matches : Outcome (list (Document * float))) : Env :=
  {| settings := default_settings;
     chroma_count := Ok (match matches with
                         | Ok l => Z.of_nat (length l)
                         | Raise _ => 0%Z
                         end);
     chroma_search := fun _ _ => matches;
     tavily_search := fun _ _ => hits;
     llm_invoke := llm;
     clock := fun n => "t" +:+ pretty n |}.

Definition hit_paris : SearchHit :=
  {| hit_title := Some "Paris weather";
     hit_url := Some "https://example.org/paris";
     hit_content := Some "Sunny" |}.

Definition chunk (n : Z) : Document :=
  {| page_content := "Quarterly revenue grew.";
     md_source := Some "report.pdf";
     md_chunk_id := Some n;
     md_file_type := Some ".pdf" |}.

(** Routed to Documents; the only match scores 0.9 and is filtered out. *)
Definition env_filtered : Env :=
  mk_env (llm_fixed (Ok "DOCUMENTS")) (Ok []) (Ok [(chunk 0, 0.9%float)]).

(** Routed to Search; the provider answers with no result and no error. *)
Definition env_no_hits : Env :=
  mk_env (llm_fixed (Ok "SEARCH")) (Ok []) (Ok []).

(** Routed to Search; one short hit. *)
Definition env_one_hit : Env :=
  mk_env (llm_fixed (Ok "SEARCH")) (Ok [hit_paris]) (Ok []).

(** Routed to Documents; scores on both sides of the threshold. *)
Definition env_docs : Env :=
  mk_env (llm_fixed (Ok "DOCUMENTS")) (Ok [])
    (Ok [(chunk 0, 0.3%float); (chunk 1, 0.8%float); (chunk 2, 0.5%float)]).

(** Routed to Both; the search provider is down, one document matches. *)
Definition env_both_search_down : Env :=
  mk_env (llm_fixed (Ok "BOTH")) (Raise "connection refused")
    (Ok [(chunk 0, 0.3%float)]).

(** Every model call fails. *)
Definition env_outage : Env :=
  mk_env llm_down (Ok [hit_paris]) (Ok [(chunk 0, 0.3%float)]).

(** A direct conversation. *)
Definition env_direct : Env :=
  mk_env (llm_fixed (Ok "DIRECT")) (Ok []) (Ok []).

Definition agent0 : ChatAgent := Agent.init default_settings "default".

(** Eleven Direct turns on one agent, and two requests of one session. *)
Definition calls11 : list (Env * string) :=
  map (fun n : nat => (env_direct, "q" +:+ pretty n)) (seq 1 11).

Definition requests2 : list (Env * ChatRequest) :=
  [(env_direct, {| req_query := "My name is Ada"; req_session_id := "s1" |});
   (env_direct, {| req_query := "What is my name?"; req_session_id := "s1" |})].

End Scenario.

(** ** The router's contract as the specification words it *)

Module RouterSpec.

Definition lower_char (c : ascii) : ascii :=
  if ((65 <=? nat_of_ascii c)%nat && (nat_of_ascii c <=? 90)%nat)
  then ascii_of_nat (nat_of_ascii c + 32) else c.

(** Two characters are the same letter up to case. *)
Definition same_letter (a b : ascii) : bool :=
  Ascii.eqb (lower_char a) (lower_char b).

Fixpoint prefix_ci (kw s : string) : bool :=
  match kw, s with
  | EmptyString, _ => true
  | String a kw', String b s' => same_letter a b && prefix_ci kw' s'
  | String _ _, EmptyString => false
  end.

(** Case-insensitive substring containment of [kw] in [s]. *)
Fixpoint contains_ci (kw s : string) : bool :=
  prefix_ci kw s ||
  match s with
  | EmptyString => false
  | String _ s' => contains_ci kw s'
  end.

(** Priority order SEARCH, DOCUMENTS, BOTH, else Direct. *)
Definition classify_spec (reply : string) : Route :=
  if contains_ci "SEARCH" reply then RSearch
  else if contains_ci "DOCUMENTS" reply then RDocuments
  else if contains_ci "BOTH" reply then RBoth
  else RDirect.

End RouterSpec.

(** ** The combine step's notion of a usable adapter result *)

Module CombineSpec.

(** An adapter result counts when its ok flag is true and its text is
    non-empty; an absent result does not count. *)
Definition usable (r : option ResultDict) : bool :=
  match r with
  | Some d => success d && Py.truthy (response d)
  | None => false
  end.

(** The text of a result that counts, the empty text otherwise. *)
Definition usable_text (r : option ResultDict) : string :=
  match r with
  | Some d => if success d && Py.truthy (response d) then response d else ""
  | None => ""
  end.

End CombineSpec.

(** Effects that write the conversation memory. *)
Definition is_memory_append (e : Event) : bool :=
  match e with
  | EvAddUserMessage _ | EvAddAIMessage _ => true
  | _ => false
  end.

(** A computation whose result does not depend on the log it starts from,
    which only appends to that log, and which does not write the memory. *)
Definition external {A} (m : M A) : Prop :=
  (forall log, m log = (fst (m []), log ++ snd (m []))) /\
  Forall (fun e => is_memory_append e = false) (snd (m [])).

(** The final state and the effects of the workflow of one [chat] call, run
    from the empty log. *)
Definition graph_result (env : Env) (self : ChatAgent) (query : string) : ChatState :=
  fst (Agent.graph_invoke env
         (Agent.initial_state query
            (MemoryManager.get_formatted_history (memory_manager self))) []).

Definition graph_events (env : Env) (self : ChatAgent) (query : string) : list Event :=
  snd (Agent.graph_invoke env
         (Agent.initial_state query
            (MemoryManager.get_formatted_history (memory_manager self))) []).

(** The rendering of a whole sequence of turns: the queries of the calls
    with the answers given to them, oldest first. *)
Fixpoint transcript (queries : list string) (results : list ChatResult) : string :=
  match queries, results with
  | query :: queries', r :: results' =>
      ("Human: " +:+ query +:+ Py.nl) +:+
      ("Assistant: " +:+ res_response r +:+ Py.nl) +:+
      transcript queries' results'
  | _, _ => ""
  end.

(** The answer a request gets from an agent built for it alone. *)
Definition answer_from_scratch (call : Env * ChatRequest) : ChatResult :=
  fst (fst (Agent.chat (fst call)
              (Agent.init (settings (fst call)) (req_session_id (snd call)))
              (req_query (snd call)) [])).

(** ** Sequences of memory operations *)

Inductive MemOp : Type :=
  | OpAddUser (message : string)
  | OpAddAI (message : string)
  | OpClear.

Fixpoint run_ops (env : Env) (ops : list MemOp) (self : ConversationMemoryManager)
  : M ConversationMemoryManager :=
  match ops with
  | [] => ret self
  | OpAddUser message :: rest =>
      self <- MemoryManager.add_user_message env self message ;; run_ops env rest self
  | OpAddAI message :: rest =>
      self <- MemoryManager.add_ai_message env self message ;; run_ops env rest self
  | OpClear :: rest => run_ops env rest (MemoryManager.clear_memory self)
  end.

(** Type and content of a history entry and of a message. *)
Definition entry_view (e : HistoryEntry) : string * string :=
  (entry_type e, entry_content e).

Definition message_view (m : BaseMessage) : string * string :=
  match m with
  | HumanMessage content => ("human", content)
  | AIMessage content => ("ai", content)
  | SystemMessage content => ("system", content)
  end.

(** What the operations of the memory manager keep. *)
Definition memory_inv (cfg : Settings) (sid : string)
    (mm : ConversationMemoryManager) : Prop :=
  map entry_view (_message_history mm)
    = map message_view (chat_memory_messages (memory mm)) /\
  Forall (fun m => exists content,
            m = HumanMessage content \/ m = AIMessage content)
         (chat_memory_messages (memory mm)) /\
  mm_session_id mm = sid /\
  mem_k (memory mm) = memory_window cfg.

(** Every session of the store is filed under its own identifier. *)
Definition store_wf (store : gmap string ConversationMemoryManager) : Prop :=
  forall sid mm, store !! sid = Some mm -> mm_session_id mm = sid.

(** Kinds of effects, and how many of a kind a log holds. *)
Definition is_llm (e : Event) : bool :=
  match e with EvLLM _ => true | _ => false end.

Definition is_provider_call (e : Event) : bool :=
  match e with EvTavilySearch _ _ => true | _ => false end.

Definition is_index_call (e : Event) : bool :=
  match e with EvSimilaritySearch _ _ => true | _ => false end.

Definition is_collection_info (e : Event) : bool :=
  match e with EvCollectionInfo => true | _ => false end.

Definition count_events (p : Event -> bool) (evs : list Event) : nat :=
  length (List.filter p evs).

(** Readers and stores used in the examples of the upload path. *)
Definition readers0 : FileReaders :=
  {| pdf_pages := fun _ => Ok ["page one"; "page two"];
     docx_paragraphs := fun _ => Ok ["paragraph"];
     read_text := fun _ => Ok "plain text";
     read_csv := fun _ => Ok "a b";
     read_excel := fun _ => Raise "not an Excel file";
     path_name := fun _ => "data";
     split_text := fun text => [text; "tail"] |}.

Definition chroma_add_ok (documents : list Document) : Outcome (list string) :=
  Ok (map (fun _ => "id") documents).

(** * Properties *)

(** ** Strings *)

Section StringFacts.
Import Py RouterSpec.

Lemma lower_upper_char (c : ascii) : lower_char (upper_char c) = lower_char c.
Proof. destruct c as [[] [] [] [] [] [] [] []]; reflexivity. Qed.

Lemma upper_lower_char (c : ascii) : upper_char (lower_char c) = upper_char c.
Proof. destruct c as [[] [] [] [] [] [] [] []]; reflexivity. Qed.

Lemma isspace_upper_char (c : ascii) : isspace (upper_char c) = isspace c.
Proof. destruct c as [[] [] [] [] [] [] [] []]; reflexivity. Qed.

Lemma same_letter_upper (a b : ascii) :
  same_letter a b = bool_decide (upper_char a = upper_char b).
Proof.
  unfold same_letter. destruct (Ascii.eqb_spec (lower_char a) (lower_char b)) as [E|E].
  - rewrite bool_decide_eq_true_2; [done|].
    by rewrite <- (upper_lower_char a), <- (upper_lower_char b), E.
  - rewrite bool_decide_eq_false_2; [done|].
    intros E'. apply E.
    by rewrite <- (lower_upper_char a), <- (lower_upper_char b), E'.
Qed.

Lemma prefix_upper (kw s : string) :
  String.prefix (upper kw) (upper s) = prefix_ci kw s.
Proof.
  revert s. induction kw as [|a kw IH]; intros [|b s]; simpl; try done.
  rewrite same_letter_upper, <- IH.
  destruct (ascii_dec (upper_char a) (upper_char b)) as [E|E].
  - by rewrite bool_decide_eq_true_2.
  - by rewrite bool_decide_eq_false_2.
Qed.

Lemma contains_upper (kw s : string) :
  contains (upper kw) (upper s) = contains_ci kw s.
Proof.
  induction s as [|b s IH].
  - change (String.prefix (upper kw) (upper "") || false
            = prefix_ci kw "" || false).
    by rewrite prefix_upper.
  - change (String.prefix (upper kw) (upper (String b s))
              || contains (upper kw) (upper s)
            = prefix_ci kw (String b s) || contains_ci kw s).
    by rewrite prefix_upper, IH.
Qed.

Lemma contains_lstrip (kw s : string) :
  starts_nonspace kw = true -> contains kw (lstrip s) = contains kw s.
Proof.
  intros Hkw. induction s as [|c s IH]; [done|].
  cbn [lstrip]. destruct (isspace c) eqn:Hc; [|done].
  rewrite IH. cbn [contains].
  destruct kw as [|a kw]; [done|]. simpl in Hkw. simpl.
  destruct (ascii_dec a c) as [->|]; [|done].
  by rewrite Hc in Hkw.
Qed.

Lemma prefix_nil (s : string) : String.prefix "" s = true.
Proof. by destruct s. Qed.

Lemma prefix_empty_r (kw : string) :
  ends_nonspace kw = true -> String.prefix kw "" = false.
Proof. by destruct kw. Qed.

Lemma prefix_rstrip (kw s : string) :
  ends_nonspace kw = true -> String.prefix kw (rstrip s) = String.prefix kw s.
Proof.
  revert kw. induction s as [|c s IH]; intros kw Hkw; [done|].
  destruct kw as [|a kw]; [done|].
  cbn [rstrip]. destruct kw as [|a' kw].
  - simpl in Hkw. destruct (rstrip s) eqn:Hr.
    + destruct (isspace c) eqn:Hc; simpl.
      * destruct (ascii_dec a c) as [->|]; [|done].
        by rewrite Hc in Hkw.
      * rewrite prefix_nil. by destruct (ascii_dec a c).
    + simpl. rewrite !prefix_nil. by destruct (ascii_dec a c).
  - assert (Hkw' : ends_nonspace (String a' kw) = true) by exact Hkw.
    specialize (IH _ Hkw').
    destruct (rstrip s) eqn:Hr.
    + rewrite prefix_empty_r in IH by done.
      destruct (isspace c); simpl; destruct (ascii_dec a c); try done;
        simpl in IH; by rewrite <- IH.
    + cbn [String.prefix]. destruct (ascii_dec a c); [|done]. exact IH.
Qed.

Lemma contains_rstrip (kw s : string) :
  ends_nonspace kw = true -> contains kw (rstrip s) = contains kw s.
Proof.
  intros Hkw. induction s as [|c s IH]; [done|].
  cbn [contains]. rewrite <- IH, <- (prefix_rstrip kw (String c s)) by done.
  cbn [rstrip]. destruct (rstrip s) eqn:Hr.
  - destruct (isspace c); cbn [contains].
    + by rewrite orb_false_r, orb_diag.
    + done.
  - done.
Qed.

Lemma contains_strip (kw s : string) :
  starts_nonspace kw = true -> ends_nonspace kw = true ->
  contains kw (strip s) = contains kw s.
Proof.
  intros H1 H2. unfold strip. by rewrite contains_rstrip, contains_lstrip.
Qed.

Lemma upper_lstrip (s : string) : upper (lstrip s) = lstrip (upper s).
Proof.
  induction s as [|c s IH]; [done|]. simpl.
  rewrite isspace_upper_char. by destruct (isspace c).
Qed.

Lemma upper_rstrip (s : string) : upper (rstrip s) = rstrip (upper s).
Proof.
  induction s as [|c s IH]; [done|]. simpl.
  rewrite <- IH, isspace_upper_char.
  destruct (rstrip s); simpl; [by destruct (isspace c)|done].
Qed.

Lemma upper_strip (s : string) : upper (strip s) = strip (upper s).
Proof. unfold strip. by rewrite upper_rstrip, upper_lstrip. Qed.

(** What [route_query] tests, for a keyword written in capitals without
    blanks at its ends. *)
Lemma contains_decision (kw reply : string) :
  upper kw = kw -> starts_nonspace kw = true -> ends_nonspace kw = true ->
  contains kw (upper (strip reply)) = contains_ci kw reply.
Proof.
  intros Hu H1 H2.
  rewrite upper_strip, contains_strip by done.
  by rewrite <- Hu at 1; rewrite contains_upper.
Qed.

End StringFacts.

(** ** Router *)

Section Router.
Import Py RouterSpec.

Lemma classify_refines (reply : string) :
  Agent.classify reply = classify_spec reply.
Proof.
  unfold Agent.classify, classify_spec.
  by rewrite !contains_decision.
Qed.

Lemma route_query_run (env : Env) (state : ChatState) (log : list Event) :
  let has_docs := fst (DocumentAgent.has_documents env log) in
  let prompt := Agent.routing_prompt_format (st_query state)
                  (st_chat_history state) has_docs in
  Agent.route_query env state log =
    (match llm_invoke env prompt with
     | Ok reply => Agent.classify reply
     | Raise _ => RDirect
     end,
     log ++ [EvCollectionInfo; EvLLM prompt]).
Proof.
  unfold Agent.route_query, DocumentAgent.has_documents,
    VectorStoreManager.get_collection_info, bind, ret, emit. simpl.
  rewrite <- app_assoc. simpl.
  by destruct (llm_invoke env _).
Qed.

End Router.


(** ** Running the monadic code *)

Ltac unfold_m := unfold bind, ret, emit, log_length in *.

Lemma take_all (n : nat) (s : string) :
  String.length s <= n -> Py.take n s = s.
Proof.
  revert n. induction s as [|c s IH]; intros [|n] H; simpl in *; try done; try lia.
  rewrite IH; [done|lia].
Qed.

Section Adapters.
Import Py.

Lemma perform_search_run env query log :
  SearchAgent._perform_search env query log =
    (match tavily_search env query (max_search_results (settings env)) with
     | Ok results => results
     | Raise _ => []
     end,
     log ++ [EvTavilySearch query (max_search_results (settings env))]).
Proof. reflexivity. Qed.

Lemma similarity_search_run env query n log :
  VectorStoreManager.similarity_search_with_score env query n log =
    (match chroma_search env query n with
     | Ok results => results
     | Raise _ => []
     end,
     log ++ [EvSimilaritySearch query n]).
Proof. reflexivity. Qed.

Lemma prepare_sources_map l :
  DocumentAgent._prepare_sources l = map DocumentAgent.source_info l.
Proof. induction l as [|x l IH]; simpl; [done|by rewrite IH]. Qed.

(** The sources of the document adapter, on every path. *)
Lemma query_documents_sources env query chat_history log :
  let r := fst (DocumentAgent.query_documents env query chat_history log) in
  let matches := fst (VectorStoreManager.similarity_search_with_score env query 5 log) in
  sources r =
    if success r
    then map DocumentAgent.source_info (List.filter DocumentAgent.relevant matches)
    else [].
Proof.
  unfold DocumentAgent.query_documents. unfold_m.
  rewrite similarity_search_run. cbn [fst snd].
  destruct (match chroma_search env query 5 with Ok r => r | Raise _ => [] end)
    as [|m ms]; [done|].
  destruct (List.filter DocumentAgent.relevant (m :: ms)) as [|f fs] eqn:Hf; [done|].
  cbn. destruct (llm_invoke env _); cbn; [|done].
  by rewrite prepare_sources_map.
Qed.

(** The sources of the search adapter, on every path. *)
Lemma search_and_respond_sources env query log :
  let r := fst (SearchAgent.search_and_respond env query log) in
  let hits := fst (SearchAgent._perform_search env query log) in
  sources r = if success r then map SearchAgent.source_of_hit hits else [].
Proof.
  unfold SearchAgent.search_and_respond. unfold_m.
  rewrite perform_search_run. cbn [fst snd].
  destruct (match tavily_search env query _ with Ok r => r | Raise _ => [] end)
    as [|h hs]; [done|].
  cbn. by destruct (llm_invoke env _).
Qed.

End Adapters.



(** ** Document adapter: the relevance filter *)

Lemma filter_sublist {A} (f : A -> bool) (l : list A) :
  sublist (List.filter f l) l.
Proof.
  induction l as [|x l IH]; simpl; [constructor|].
  destruct (f x); by constructor.
Qed.

(** C7.  Of the scored matches returned by the index the adapter keeps
    exactly those with [score < 0.8], in their original order, and a
    successful outcome carries one document source per kept match, in that
    order. *)
Theorem C7_relevance_filter_sources
    (env : Env) (query chat_history : string) (log : list Event)
    (Hok : success (fst (DocumentAgent.query_documents env query chat_history log)) = true) :
  let r := fst (DocumentAgent.query_documents env query chat_history log) in
  let matches := fst (VectorStoreManager.similarity_search_with_score env query 5 log) in
  let kept := List.filter DocumentAgent.relevant matches in
  (forall (doc : Document) (score : float),
     In (doc, score) kept <->
     In (doc, score) matches /\ PrimFloat.ltb score 0.8%float = true) /\
  sublist kept matches /\
  sources r = map DocumentAgent.source_info kept /\
  length (sources r) = length kept /\
  (forall i : nat, sources r !! i = DocumentAgent.source_info <$> kept !! i) /\
  Forall (fun s => is_doc_source s = true) (sources r).
Proof.
  intros r matches kept.
  assert (Hsrc : sources r = map DocumentAgent.source_info kept).
  { pose proof (query_documents_sources env query chat_history log) as H.
    cbv zeta in H. fold r matches kept in H. subst r. by rewrite Hok in H. }
  split; [|split; [|split; [|split; [|split]]]].
  - intros doc score. unfold kept. rewrite List.filter_In. reflexivity.
  - apply filter_sublist.
  - exact Hsrc.
  - by rewrite Hsrc, length_map.
  - intros i. by rewrite Hsrc, list_lookup_fmap.
  - rewrite Hsrc. apply Forall_forall. intros s Hs.
    apply list_elem_of_fmap in Hs as [[doc score] [-> _]]. reflexivity.
Qed.

(** C7 on three matches scored 0.3, 0.8 and 0.5: the second is dropped. *)
Lemma C7_relevance_filter_witness :
  sources (fst (DocumentAgent.query_documents Scenario.env_docs "revenue" "" []))
    = [DocSource "report.pdf" 0 ".pdf" 0.3%float "Quarterly revenue grew.";
       DocSource "report.pdf" 2 ".pdf" 0.5%float "Quarterly revenue grew."].
Proof.
  pose proof (C7_relevance_filter_sources Scenario.env_docs "revenue" "" [] eq_refl)
    as (_ & _ & H & _).
  exact H.
Defined.

(** ** Empty results *)

(** C4, as stated, fails for the search adapter: a provider answer with no
    result and no error is reported with [success = False]. *)
Lemma C4_search_no_hits_is_failure :
  tavily_search Scenario.env_no_hits "weather" 5 = Ok [] /\
  success (fst (SearchAgent.search_and_respond Scenario.env_no_hits "weather" []))
    = false.
Proof. split; reflexivity. Qed.

(** C4, amended.  When no match is left after the relevance filter (or the
    index returned none) the document adapter answers with [success = True],
    no sources and an explicit text.  When the provider returns no result
    the search adapter answers with [success = False], no sources and an
    explicit text. *)
Theorem C4_empty_result_outcomes
    (env : Env) (query chat_history : string) (log : list Event) :
  let rd := fst (DocumentAgent.query_documents env query chat_history log) in
  let matches := fst (VectorStoreManager.similarity_search_with_score env query 5 log) in
  let rs := fst (SearchAgent.search_and_respond env query log) in
  let hits := fst (SearchAgent._perform_search env query log) in
  (List.filter DocumentAgent.relevant matches = [] ->
     success rd = true /\ sources rd = [] /\
     response rd =
       (if bool_decide (matches = [])
        then "I don't have any relevant documents to answer your question. Please upload some documents first."
        else "I couldn't find sufficiently relevant information in the uploaded documents to answer your question.")) /\
  (hits = [] ->
     success rs = false /\ sources rs = [] /\
     response rs = "I couldn't find relevant information for your query. Please try rephrasing your question.").
Proof.
  intros rd matches rs hits. split.
  - subst rd matches. unfold DocumentAgent.query_documents. unfold_m.
    rewrite similarity_search_run. cbn [fst snd].
    destruct (match chroma_search env query 5 with Ok r => r | Raise _ => [] end)
      as [|m ms]; [done|].
    intros ->. rewrite bool_decide_eq_false_2; done.
  - subst rs hits. unfold SearchAgent.search_and_respond. unfold_m.
    rewrite perform_search_run. cbn [fst snd].
    by intros ->.
Qed.

(** C4 on a document search whose only match scores 0.9 and on a web
    search without hits. *)
Lemma C4_empty_result_witness :
  success (fst (DocumentAgent.query_documents Scenario.env_filtered "revenue" "" []))
    = true /\
  success (fst (SearchAgent.search_and_respond Scenario.env_no_hits "weather" []))
    = false.
Proof.
  pose proof (C4_empty_result_outcomes Scenario.env_filtered "revenue" "" [])
    as [Hd _].
  pose proof (C4_empty_result_outcomes Scenario.env_no_hits "weather" "" [])
    as [_ Hs].
  split.
  - apply Hd. reflexivity.
  - apply Hs. reflexivity.
Defined.

(** ** The workflow only talks to its collaborators *)

Section External.

Lemma external_ret {A} (a : A) : external (ret a).
Proof. split; [intros log; cbn; by rewrite app_nil_r|constructor]. Qed.

Lemma external_emit (e : Event) : is_memory_append e = false -> external (emit e).
Proof. intros He. split; [done|]. cbn. by constructor. Qed.

Lemma external_bind {A B} (m : M A) (f : A -> M B) :
  external m -> (forall a, external (f a)) -> external (bind m f).
Proof.
  intros [Hm Fm] Hf. unfold bind. split.
  - intros log. rewrite (Hm log).
    destruct (m []) as [a l] eqn:Em. cbn [fst snd].
    destruct (Hf a) as [Hfa _].
    rewrite (Hfa (log ++ l)), (Hfa l). cbn [fst snd]. by rewrite app_assoc.
  - destruct (m []) as [a l] eqn:Em. cbn [fst snd] in *.
    destruct (Hf a) as [Hfa Ffa]. rewrite (Hfa l). cbn [snd].
    by apply Forall_app.
Qed.

Lemma external_fst {A} (m : M A) (log : list Event) :
  external m -> fst (m log) = fst (m []).
Proof. intros [H _]. by rewrite H. Qed.

Lemma external_snd {A} (m : M A) (log : list Event) :
  external m -> snd (m log) = log ++ snd (m []).
Proof. intros [H _]. by rewrite H. Qed.

End External.

Ltac external_step :=
  first
    [ apply external_ret
    | apply external_emit; reflexivity
    | apply external_bind; [|intros ?]
    | match goal with
      | |- external (match ?x with _ => _ end) => destruct x
      | |- external (if ?x then _ else _) => destruct x
      end ].

Ltac external_auto := repeat external_step.

Section Nodes.
Import Py CombineSpec.

Lemma external_search_and_respond env query :
  external (SearchAgent.search_and_respond env query).
Proof.
  unfold SearchAgent.search_and_respond, SearchAgent._perform_search.
  external_auto.
Qed.

Lemma external_query_documents env query chat_history :
  external (DocumentAgent.query_documents env query chat_history).
Proof.
  unfold DocumentAgent.query_documents,
    VectorStoreManager.similarity_search_with_score.
  external_auto.
Qed.

Lemma external_route_query env state : external (Agent.route_query env state).
Proof.
  unfold Agent.route_query, DocumentAgent.has_documents,
    VectorStoreManager.get_collection_info.
  external_auto.
Qed.

Lemma external_search_node env state : external (Agent.search_node env state).
Proof.
  unfold Agent.search_node.
  apply external_bind; [apply external_search_and_respond|intros; apply external_ret].
Qed.

Lemma external_document_node env state : external (Agent.document_node env state).
Proof.
  unfold Agent.document_node.
  apply external_bind; [apply external_query_documents|intros; apply external_ret].
Qed.

Lemma external_both_node env state : external (Agent.both_node env state).
Proof.
  unfold Agent.both_node.
  apply external_bind; [apply external_search_node|intros].
  apply external_bind; [apply external_document_node|intros; apply external_ret].
Qed.

Lemma external_direct_response_node env state :
  external (Agent.direct_response_node env state).
Proof. unfold Agent.direct_response_node. external_auto. Qed.

Lemma external_combine_results_node env state :
  external (Agent.combine_results_node env state).
Proof.
  unfold Agent.combine_results_node.
  destruct (negb _ && negb _); [apply external_direct_response_node|].
  apply external_bind; [apply external_emit; reflexivity|intros _].
  destruct (llm_invoke env _); [apply external_ret|apply external_direct_response_node].
Qed.

Lemma external_graph_invoke env state : external (Agent.graph_invoke env state).
Proof.
  unfold Agent.graph_invoke.
  apply external_bind; [apply external_route_query|intros route].
  destruct route.
  - apply external_bind; [apply external_search_node|intros; apply external_combine_results_node].
  - apply external_bind; [apply external_document_node|intros; apply external_combine_results_node].
  - apply external_bind; [apply external_both_node|intros; apply external_combine_results_node].
  - apply external_direct_response_node.
Qed.

(** [direct_response_node], run. *)
Lemma direct_response_node_run env state log :
  let prompt := Agent.direct_prompt (st_chat_history state) (st_query state) in
  Agent.direct_response_node env state log =
    (match llm_invoke env prompt with
     | Ok content => Agent.set_final state (strip content) []
     | Raise _ => Agent.set_final state Agent.apology (st_sources state)
     end,
     log ++ [EvLLM prompt]).
Proof.
  unfold Agent.direct_response_node. unfold_m. cbn.
  by destruct (llm_invoke env _).
Qed.

Lemma usable_info_of (r : option ResultDict) :
  truthy (Agent.info_of r) = usable r /\ Agent.info_of r = usable_text r.
Proof.
  destruct r as [d|]; [|done]. cbn.
  destruct (success d); [|done]. cbn. by destruct (response d).
Qed.

(** [combine_results_node], run, in terms of the usable results. *)
Lemma combine_results_node_run env state log :
  let sr := st_search_results state in
  let dr := st_document_results state in
  let prompt := Agent.final_prompt_format (st_query state) (st_chat_history state)
                  (usable_text sr) (usable_text dr) in
  Agent.combine_results_node env state log =
    if usable sr || usable dr
    then match llm_invoke env prompt with
         | Ok content =>
             (Agent.set_final state (strip content)
                (Agent.sources_of sr ++ Agent.sources_of dr),
              log ++ [EvLLM prompt])
         | Raise _ => Agent.direct_response_node env state (log ++ [EvLLM prompt])
         end
    else Agent.direct_response_node env state log.
Proof.
  intros sr dr prompt. unfold Agent.combine_results_node.
  destruct (usable_info_of sr) as [Hs1 Hs2], (usable_info_of dr) as [Hd1 Hd2].
  fold sr dr. rewrite Hs1, Hd1, Hs2, Hd2. fold prompt.
  rewrite <- negb_orb.
  destruct (usable sr || usable dr); cbn [negb]; [|done].
  unfold_m. cbn. by destruct (llm_invoke env prompt).
Qed.

End Nodes.

(** ** One [chat] call *)

Section Chat.
Import Py CombineSpec.

Lemma chat_run env self query log :
  let g := graph_result env self query in
  let log1 := log ++ graph_events env self query in
  let mm := memory_manager self in
  Agent.chat env self query log =
    (({| res_success := true;
         res_response := st_final_response g;
         res_sources := st_sources g;
         res_session_id := session_id self |},
      {| session_id := session_id self;
         memory_manager :=
           {| mm_session_id := mm_session_id mm;
              memory :=
                {| mem_k := mem_k (memory mm);
                   chat_memory_messages :=
                     chat_memory_messages (memory mm)
                     ++ [HumanMessage query; AIMessage (st_final_response g)] |};
              _message_history :=
                _message_history mm ++
                [{| entry_type := "human"; entry_content := query;
                    entry_timestamp := clock env (S (length log1)) |};
                 {| entry_type := "ai"; entry_content := st_final_response g;
                    entry_timestamp := clock env (S (S (length log1))) |}] |} |}),
     log1 ++ [EvAddUserMessage query; EvAddAIMessage (st_final_response g)]).
Proof.
  intros g log1 mm. unfold Agent.chat.
  unfold bind at 1.
  rewrite (proj1 (external_graph_invoke env _) log).
  fold (graph_result env self query) (graph_events env self query).
  fold g log1 mm.
  unfold MemoryManager.add_user_message, MemoryManager.add_ai_message,
    MemoryManager._get_timestamp.
  unfold_m. cbn.
  rewrite <- !app_assoc. cbn.
  rewrite !length_app. cbn.
  repeat f_equal; lia.
Qed.

End Chat.

(** ** Combine *)

Section Combine.
Import Py CombineSpec.

(** The outcome of the document adapter when every match is filtered out. *)
Lemma query_documents_filtered_out env query chat_history log :
  let matches := fst (VectorStoreManager.similarity_search_with_score env query 5 log) in
  matches <> [] -> List.filter DocumentAgent.relevant matches = [] ->
  fst (DocumentAgent.query_documents env query chat_history log) =
    {| success := true;
       response := "I couldn't find sufficiently relevant information in the uploaded documents to answer your question.";
       sources := [];
       documents_found := Some true;
       search_performed := None |}.
Proof.
  unfold DocumentAgent.query_documents. unfold_m.
  rewrite similarity_search_run. cbn [fst snd].
  destruct (match chroma_search env query 5 with Ok r => r | Raise _ => [] end)
    as [|m ms]; [done|].
  by intros _ ->.
Qed.

End Combine.

(** C1, as stated, fails: when the relevance filter removes every match, the
    document adapter's outcome is a success with a non-empty text, so the
    combine step issues the final synthesis call (its answer carries no
    source) and does not take the Direct branch. *)
Lemma C1_filtered_out_is_not_direct :
  let st0 := Agent.initial_state "revenue" "" in
  let st1 := fst (Agent.document_node Scenario.env_filtered st0 []) in
  let nothing_relevant :=
    "I couldn't find sufficiently relevant information in the uploaded documents to answer your question." in
  List.filter DocumentAgent.relevant [(Scenario.chunk 0, 0.9%float)] = [] /\
  st_document_results st1 =
    Some {| success := true; response := nothing_relevant; sources := [];
            documents_found := Some true; search_performed := None |} /\
  snd (Agent.combine_results_node Scenario.env_filtered st1 [])
    = [EvLLM (Agent.final_prompt_format "revenue" "" "" nothing_relevant)] /\
  snd (Agent.direct_response_node Scenario.env_filtered st1 [])
    = [EvLLM (Agent.direct_prompt "" "revenue")] /\
  st_final_response (fst (Agent.combine_results_node Scenario.env_filtered st1 []))
    = "combined answer" /\
  st_sources (fst (Agent.combine_results_node Scenario.env_filtered st1 [])) = [] /\
  st_final_response (fst (Agent.direct_response_node Scenario.env_filtered st1 []))
    = "direct answer".
Proof. vm_compute. repeat split; reflexivity. Qed.

(** C1, amended.  The combine step passes on the text of exactly the adapter
    results whose ok flag is true and whose text is non-empty, and it takes
    the Direct branch exactly when there is no such result (and also when
    its own model call raises); the sources it gathers are those of the
    results whose ok flag is true.  The "nothing relevant" outcome of the
    document adapter is such a result, with no source: after it the combine
    step issues the final synthesis call. *)
Theorem C1_combine_usable_or_direct
    (env : Env) (state : ChatState) (log : list Event) :
  let sr := st_search_results state in
  let dr := st_document_results state in
  let prompt := Agent.final_prompt_format (st_query state) (st_chat_history state)
                  (CombineSpec.usable_text sr) (CombineSpec.usable_text dr) in
  Agent.combine_results_node env state log =
    (if CombineSpec.usable sr || CombineSpec.usable dr
     then match llm_invoke env prompt with
          | Ok content =>
              (Agent.set_final state (Py.strip content)
                 (Agent.sources_of sr ++ Agent.sources_of dr),
               log ++ [EvLLM prompt])
          | Raise _ => Agent.direct_response_node env state (log ++ [EvLLM prompt])
          end
     else Agent.direct_response_node env state log) /\
  (let matches :=
     fst (VectorStoreManager.similarity_search_with_score env (st_query state) 5 log) in
   let st1 := fst (Agent.document_node env state log) in
   let nothing_relevant :=
     "I couldn't find sufficiently relevant information in the uploaded documents to answer your question." in
   let prompt1 := Agent.final_prompt_format (st_query state) (st_chat_history state)
                    (CombineSpec.usable_text sr) nothing_relevant in
   matches <> [] -> List.filter DocumentAgent.relevant matches = [] ->
   CombineSpec.usable (st_document_results st1) = true /\
   Agent.sources_of (st_document_results st1) = [] /\
   forall log1 : list Event,
     Agent.combine_results_node env st1 log1 =
       match llm_invoke env prompt1 with
       | Ok content =>
           (Agent.set_final st1 (Py.strip content) (Agent.sources_of sr),
            log1 ++ [EvLLM prompt1])
       | Raise _ => Agent.direct_response_node env st1 (log1 ++ [EvLLM prompt1])
       end).
Proof.
  intros sr dr prompt. split; [apply combine_results_node_run|].
  intros matches st1 nothing_relevant prompt1 Hne Hfil.
  assert (Hst1 : st_document_results st1 =
            Some {| success := true; response := nothing_relevant; sources := [];
                    documents_found := Some true; search_performed := None |}).
  { subst st1. unfold Agent.document_node, bind.
    pose proof (query_documents_filtered_out env (st_query state)
                  (st_chat_history state) log Hne Hfil) as H.
    destruct (DocumentAgent.query_documents env (st_query state)
                (st_chat_history state) log) as [r l].
    cbn in H. subst r. reflexivity. }
  assert (Hsr : st_search_results st1 = sr).
  { subst st1. unfold Agent.document_node, bind.
    by destruct (DocumentAgent.query_documents env _ _ log). }
  assert (Hq : st_query st1 = st_query state /\
               st_chat_history st1 = st_chat_history state).
  { subst st1. unfold Agent.document_node, bind.
    by destruct (DocumentAgent.query_documents env _ _ log). }
  destruct Hq as [Hq Hh].
  rewrite Hst1. split; [reflexivity|]. split; [reflexivity|].
  intros log1. rewrite combine_results_node_run.
  rewrite Hst1, Hsr, Hq, Hh. cbn [CombineSpec.usable CombineSpec.usable_text success response
    Py.truthy andb Agent.sources_of sources].
  rewrite orb_true_r, app_nil_r. reflexivity.
Qed.

(** C1 on the Documents branch with every match filtered out. *)
Lemma C1_combine_witness :
  let st0 := Agent.initial_state "revenue" "" in
  let st1 := fst (Agent.document_node Scenario.env_filtered st0 []) in
  st_final_response (fst (Agent.combine_results_node Scenario.env_filtered st1 []))
    = "combined answer" /\
  st_sources (fst (Agent.combine_results_node Scenario.env_filtered st1 [])) = [].
Proof.
  intros st0 st1.
  pose proof (C1_combine_usable_or_direct Scenario.env_filtered st0 []) as [_ H].
  cbv zeta in H.
  destruct H as (_ & _ & H); [discriminate|reflexivity|].
  fold st1 in H. rewrite (H []). split; reflexivity.
Defined.

(** ** The success flag of [chat] *)

(** C9, as stated, fails: with every model call failing, the Direct branch's
    own call fails too, and [chat] still answers [success = True], with the
    fixed apology as its text. *)
Lemma C9_outage_still_reports_success :
  llm_invoke Scenario.env_outage (Agent.direct_prompt "" "hi") = Raise "timeout" /\
  res_success (fst (fst (Agent.chat Scenario.env_outage Scenario.agent0 "hi" [])))
    = true /\
  res_response (fst (fst (Agent.chat Scenario.env_outage Scenario.agent0 "hi" [])))
    = "I apologize, but I encountered an error processing your request.".
Proof. vm_compute. repeat split; reflexivity. Qed.

(** C9, amended.  Every [chat] call answers [success = True]; when the model
    call of the Direct branch raises, that branch writes the fixed apology as
    the answer, and under a total outage of the model the result of [chat] is
    that apology, with no source and [success = True]. *)
Theorem C9_chat_always_reports_success
    (env : Env) (self : ChatAgent) (query : string) (log : list Event) :
  let res := fst (fst (Agent.chat env self query log)) in
  res_success res = true /\
  (forall (state : ChatState) (log1 : list Event) (e : string),
     llm_invoke env (Agent.direct_prompt (st_chat_history state) (st_query state))
       = Raise e ->
     fst (Agent.direct_response_node env state log1)
       = Agent.set_final state Agent.apology (st_sources state)) /\
  ((forall prompt : string, exists e : string, llm_invoke env prompt = Raise e) ->
   res_response res = Agent.apology /\ res_sources res = []).
Proof.
  intros res. subst res. rewrite chat_run. cbn [fst snd res_success res_response res_sources].
  split; [reflexivity|]. split.
  - intros state log1 e He. rewrite direct_response_node_run. cbn [fst]. by rewrite He.
  - intros Hdown.
    assert (Hg : graph_result env self query =
              Agent.set_final
                (Agent.initial_state query
                   (MemoryManager.get_formatted_history (memory_manager self)))
                Agent.apology []).
    { unfold graph_result, Agent.graph_invoke, bind.
      rewrite route_query_run. cbv zeta.
      match goal with
      | |- context [llm_invoke env ?p] => destruct (Hdown p) as [e ->]
      end.
      rewrite direct_response_node_run. cbn [fst].
      match goal with
      | |- context [llm_invoke env ?p] => destruct (Hdown p) as [e' ->]
      end.
      reflexivity. }
    rewrite Hg. split; reflexivity.
Qed.

(** C9 with a model whose every call times out. *)
Lemma C9_chat_success_witness :
  res_success (fst (fst (Agent.chat Scenario.env_outage Scenario.agent0 "hi" []))) = true /\
  res_response (fst (fst (Agent.chat Scenario.env_outage Scenario.agent0 "hi" [])))
    = Agent.apology /\
  res_sources (fst (fst (Agent.chat Scenario.env_outage Scenario.agent0 "hi" []))) = [].
Proof.
  pose proof (C9_chat_always_reports_success Scenario.env_outage Scenario.agent0 "hi" [])
    as (H1 & _ & H3).
  split; [exact H1|].
  apply H3. intros prompt. exists "timeout". reflexivity.
Defined.

(** ** The Both branch *)

Section Both.
Import Py CombineSpec.

Lemma search_node_run env state log :
  Agent.search_node env state log =
    ({| st_query := st_query state;
        st_response := st_response state;
        st_chat_history := st_chat_history state;
        st_needs_search := true;
        st_needs_documents := st_needs_documents state;
        st_search_results :=
          Some (fst (SearchAgent.search_and_respond env (st_query state) []));
        st_document_results := st_document_results state;
        st_final_response := st_final_response state;
        st_sources := st_sources state |},
     log ++ snd (SearchAgent.search_and_respond env (st_query state) [])).
Proof.
  unfold Agent.search_node, bind.
  by rewrite (proj1 (external_search_and_respond env (st_query state)) log).
Qed.

Lemma document_node_run env state log :
  Agent.document_node env state log =
    ({| st_query := st_query state;
        st_response := st_response state;
        st_chat_history := st_chat_history state;
        st_needs_search := st_needs_search state;
        st_needs_documents := true;
        st_search_results := st_search_results state;
        st_document_results :=
          Some (fst (DocumentAgent.query_documents env (st_query state)
                       (st_chat_history state) []));
        st_final_response := st_final_response state;
        st_sources := st_sources state |},
     log ++ snd (DocumentAgent.query_documents env (st_query state)
                   (st_chat_history state) [])).
Proof.
  unfold Agent.document_node, bind.
  by rewrite (proj1 (external_query_documents env (st_query state)
                       (st_chat_history state)) log).
Qed.

(** The search adapter starts with the call to the provider, the document
    adapter with the call to the index. *)
Lemma search_and_respond_calls_provider env query :
  exists rest,
    snd (SearchAgent.search_and_respond env query [])
      = EvTavilySearch query (max_search_results (settings env)) :: rest.
Proof.
  unfold SearchAgent.search_and_respond. unfold_m.
  rewrite perform_search_run. cbn [fst snd app].
  destruct (match tavily_search env query _ with Ok r => r | Raise _ => [] end);
    [by eexists|].
  cbn. destruct (llm_invoke env _); by eexists.
Qed.

Lemma query_documents_calls_index env query chat_history :
  exists rest,
    snd (DocumentAgent.query_documents env query chat_history [])
      = EvSimilaritySearch query 5 :: rest.
Proof.
  unfold DocumentAgent.query_documents. unfold_m.
  rewrite similarity_search_run. cbn [fst snd app].
  destruct (match chroma_search env query 5 with Ok r => r | Raise _ => [] end);
    [by eexists|].
  destruct (List.filter _ _); [by eexists|].
  cbn. destruct (llm_invoke env _); by eexists.
Qed.

(** What the caller sees of the combine step depends on the state only
    through the query, the history, the usable texts, the gathered sources
    and the sources already in the state. *)
Lemma combine_outcome_congr env st st' log log' :
  st_query st = st_query st' ->
  st_chat_history st = st_chat_history st' ->
  usable (st_search_results st) = usable (st_search_results st') ->
  usable (st_document_results st) = usable (st_document_results st') ->
  usable_text (st_search_results st) = usable_text (st_search_results st') ->
  usable_text (st_document_results st) = usable_text (st_document_results st') ->
  Agent.sources_of (st_search_results st) ++ Agent.sources_of (st_document_results st)
    = Agent.sources_of (st_search_results st') ++ Agent.sources_of (st_document_results st') ->
  st_sources st = st_sources st' ->
  st_final_response (fst (Agent.combine_results_node env st log))
    = st_final_response (fst (Agent.combine_results_node env st' log')) /\
  st_sources (fst (Agent.combine_results_node env st log))
    = st_sources (fst (Agent.combine_results_node env st' log')).
Proof.
  intros Hq Hh Hus Hud Hts Htd Hsrc Hss.
  rewrite !combine_results_node_run, !direct_response_node_run.
  rewrite Hq, Hh, Hus, Hud, Hts, Htd, Hsrc, Hss.
  destruct (usable _ || usable _); cbn [fst].
  - destruct (llm_invoke env (Agent.final_prompt_format _ _ _ _)); cbn [fst].
    + done.
    + by destruct (llm_invoke env (Agent.direct_prompt _ _)).
  - by destruct (llm_invoke env (Agent.direct_prompt _ _)).
Qed.

Lemma combine_sources_cases env st log :
  let out := st_sources (fst (Agent.combine_results_node env st log)) in
  out = Agent.sources_of (st_search_results st) ++ Agent.sources_of (st_document_results st)
  \/ out = [] \/ out = st_sources st.
Proof.
  cbv zeta. rewrite combine_results_node_run, !direct_response_node_run.
  destruct (usable _ || usable _); cbn [fst].
  - destruct (llm_invoke env (Agent.final_prompt_format _ _ _ _)); cbn [fst].
    + by left.
    + destruct (llm_invoke env (Agent.direct_prompt _ _)); cbn; auto.
  - destruct (llm_invoke env (Agent.direct_prompt _ _)); cbn; auto.
Qed.

Lemma failed_not_usable (r : ResultDict) :
  success r = false ->
  usable (Some r) = false /\ usable_text (Some r) = "" /\ Agent.sources_of (Some r) = [].
Proof. intros H. cbn. by rewrite H. Qed.

End Both.

(** C8.  When the router answers Both, the search provider and then the
    document index are called whatever the first call yields.  If the search
    adapter fails and the document adapter succeeds, the result of [chat]
    has [success = True], its sources are document sources only, and its
    answer and sources are those the Documents branch alone produces: nothing
    of the search failure reaches the caller. *)
Theorem C8_both_runs_both_adapters
    (env : Env) (self : ChatAgent) (query : string) (log : list Event)
    (Hroute :
       fst (Agent.route_query env
              (Agent.initial_state query
                 (MemoryManager.get_formatted_history (memory_manager self))) log)
         = RBoth) :
  let hist := MemoryManager.get_formatted_history (memory_manager self) in
  let st0 := Agent.initial_state query hist in
  let rs := fst (SearchAgent.search_and_respond env query []) in
  let rd := fst (DocumentAgent.query_documents env query hist []) in
  let res := fst (fst (Agent.chat env self query log)) in
  let documents_only :=
    fst (Agent.combine_results_node env (fst (Agent.document_node env st0 [])) []) in
  (exists evs1 evs2 evs3 : list Event,
     snd (Agent.chat env self query log) =
       log ++ evs1 ++ [EvTavilySearch query (max_search_results (settings env))]
           ++ evs2 ++ [EvSimilaritySearch query 5] ++ evs3) /\
  (success rs = false -> success rd = true ->
   res_success res = true /\
   Forall (fun s => is_doc_source s = true) (res_sources res) /\
   (res_sources res = sources rd \/ res_sources res = []) /\
   res_response res = st_final_response documents_only /\
   res_sources res = st_sources documents_only).
Proof.
  intros hist st0 rs rd res documents_only.
  rewrite (external_fst _ log (external_route_query env _)) in Hroute.
  fold hist st0 in Hroute.
  set (st_b := {| st_query := query; st_response := ""; st_chat_history := hist;
                  st_needs_search := true; st_needs_documents := true;
                  st_search_results := Some rs; st_document_results := Some rd;
                  st_final_response := ""; st_sources := [] |}).
  set (rp := Agent.routing_prompt_format query hist
               (fst (DocumentAgent.has_documents env []))).
  assert (Hg : Agent.graph_invoke env st0 [] =
            Agent.combine_results_node env st_b
              ([EvCollectionInfo; EvLLM rp]
               ++ snd (SearchAgent.search_and_respond env query [])
               ++ snd (DocumentAgent.query_documents env query hist []))).
  { unfold Agent.graph_invoke. unfold bind at 1.
    destruct (Agent.route_query env st0 []) as [route l] eqn:Hr.
    cbn [fst] in Hroute. subst route.
    rewrite route_query_run in Hr. cbv zeta in Hr.
    injection Hr as _ Hl. subst l.
    unfold Agent.both_node, bind.
    rewrite search_node_run, document_node_run. cbn.
    reflexivity. }
  subst res. rewrite chat_run. cbv zeta. cbn [fst snd res_success res_response res_sources].
  unfold graph_result, graph_events. fold hist st0. rewrite Hg.
  rewrite (external_fst _ _ (external_combine_results_node env st_b)).
  split.
  - rewrite (external_snd _ _ (external_combine_results_node env st_b)).
    destruct (search_and_respond_calls_provider env query) as [r1 ->].
    destruct (query_documents_calls_index env query hist) as [r2 ->].
    exists [EvCollectionInfo; EvLLM rp], r1,
      (r2 ++ snd (Agent.combine_results_node env st_b [])
          ++ [EvAddUserMessage query;
              EvAddAIMessage
                (st_final_response (fst (Agent.combine_results_node env st_b [])))]).
    repeat (rewrite <- ?app_assoc; cbn [app]). reflexivity.
  - intros Hs Hd.
    destruct (failed_not_usable rs Hs) as (U1 & U2 & U3).
    assert (Hdocs : Forall (fun s => is_doc_source s = true) (sources rd)).
    { pose proof (query_documents_sources env query hist []) as H.
      cbv zeta in H. fold rd in H. rewrite H, Hd.
      apply Forall_forall. intros s Hin.
      apply list_elem_of_fmap in Hin as [[doc score] [-> _]]. reflexivity. }
    assert (Hcases := combine_sources_cases env st_b []).
    cbv zeta in Hcases.
    cbn [st_b st_search_results st_document_results st_sources] in Hcases.
    rewrite U3 in Hcases. cbn [app Agent.sources_of] in Hcases. rewrite Hd in Hcases.
    assert (Hcongr := combine_outcome_congr env st_b
              (fst (Agent.document_node env st0 [])) [] []).
    rewrite document_node_run in Hcongr.
    cbn [fst st_b st0 Agent.initial_state st_query st_chat_history st_search_results
         st_document_results st_sources] in Hcongr.
    fold hist rd in Hcongr. rewrite U1, U2, U3 in Hcongr.
    specialize (Hcongr eq_refl eq_refl eq_refl eq_refl eq_refl eq_refl eq_refl eq_refl).
    destruct Hcongr as [Hresp Hsrcs].
    subst documents_only. rewrite document_node_run. cbn [fst].
    split; [reflexivity|]. split; [|split; [|split]].
    + destruct Hcases as [-> | [-> | ->]]; [exact Hdocs|constructor|constructor].
    + destruct Hcases as [-> | [-> | ->]]; auto.
    + exact Hresp.
    + exact Hsrcs.
Qed.

(** C8 with the search provider down and one relevant document chunk. *)
Lemma C8_both_witness :
  let res := fst (fst (Agent.chat Scenario.env_both_search_down Scenario.agent0
                         "What does the report say?" [])) in
  res_success res = true /\
  res_sources res
    = [DocSource "report.pdf" 0 ".pdf" 0.3%float "Quarterly revenue grew."] /\
  res_response res = "combined answer".
Proof.
  pose proof (C8_both_runs_both_adapters Scenario.env_both_search_down Scenario.agent0
                "What does the report say?" [] eq_refl) as [_ H].
  cbv zeta in H.
  destruct H as (H1 & _ & _ & H4 & H5); [reflexivity|reflexivity|].
  cbv zeta. rewrite H4, H5. split; [exact H1|]. split; reflexivity.
Defined.

(** ** History appends *)

Section History.
Import Py.

Lemma chats_cons env query calls self log :
  Agent.chats ((env, query) :: calls) self log =
    let step := Agent.chat env self query log in
    let tail := Agent.chats calls (snd (fst step)) (snd step) in
    ((fst (fst step) :: fst (fst tail), snd (fst tail)), snd tail).
Proof.
  cbn [Agent.chats]. unfold bind, ret.
  destruct (Agent.chat env self query log) as [[r a] l]. cbn [fst snd].
  by destruct (Agent.chats calls a l) as [[rs a'] l'].
Qed.

Lemma chat_count env self query log :
  message_count (Agent.get_conversation_summary (snd (fst (Agent.chat env self query log))))
    = message_count (Agent.get_conversation_summary self) + 2.
Proof.
  rewrite chat_run. cbv zeta.
  unfold Agent.get_conversation_summary, MemoryManager.get_session_summary.
  cbn [fst snd message_count memory_manager _message_history].
  rewrite length_app. cbn [length]. lia.
Qed.

Lemma chats_run_count calls self log :
  let out := Agent.chats calls self log in
  length (fst (fst out)) = length calls /\
  message_count (Agent.get_conversation_summary (snd (fst out)))
    = message_count (Agent.get_conversation_summary self) + 2 * length calls.
Proof.
  revert self log. induction calls as [|[env query] calls IH]; intros self log.
  - cbn. split; [done|lia].
  - rewrite chats_cons. cbv zeta. cbn [fst snd length].
    destruct (IH (snd (fst (Agent.chat env self query log)))
                 (snd (Agent.chat env self query log))) as [IH1 IH2].
    split; [by rewrite IH1|].
    rewrite IH2, chat_count. lia.
Qed.

End History.

(** C5.  One [chat] call appends the user message and then the assistant
    message, each once and after every call of the workflow, and the text
    appended for the assistant is the answer returned (whatever branch
    produced it); so the summary counts two messages per completed call. *)
Theorem C5_two_appends_per_chat
    (env : Env) (self : ChatAgent) (query : string) (log : list Event) :
  let out := Agent.chat env self query log in
  let res := fst (fst out) in
  let self' := snd (fst out) in
  (exists evs : list Event,
     Forall (fun e => is_memory_append e = false) evs /\
     snd out = log ++ evs ++ [EvAddUserMessage query; EvAddAIMessage (res_response res)]) /\
  MemoryManager.get_conversation_history (memory_manager self')
    = MemoryManager.get_conversation_history (memory_manager self)
      ++ [HumanMessage query; AIMessage (res_response res)] /\
  (exists t1 t2 : string,
     _message_history (memory_manager self')
       = _message_history (memory_manager self)
         ++ [{| entry_type := "human"; entry_content := query; entry_timestamp := t1 |};
             {| entry_type := "ai"; entry_content := res_response res;
                entry_timestamp := t2 |}]) /\
  message_count (Agent.get_conversation_summary self')
    = message_count (Agent.get_conversation_summary self) + 2 /\
  (forall (calls : list (Env * string)) (cfg : Settings) (sid : string)
          (log0 : list Event),
     let done := Agent.chats calls (Agent.init cfg sid) log0 in
     length (fst (fst done)) = length calls /\
     message_count (Agent.get_conversation_summary (snd (fst done)))
       = 2 * length calls).
Proof.
  intros out res self'. subst res self' out. rewrite chat_run. cbv zeta.
  cbn [fst snd res_response memory_manager _message_history
       MemoryManager.get_conversation_history memory chat_memory_messages].
  split; [|split; [|split; [|split]]].
  - exists (graph_events env self query). split.
    + apply (external_graph_invoke env).
    + by rewrite <- app_assoc.
  - reflexivity.
  - by eexists _, _.
  - pose proof (chat_count env self query log) as H.
    rewrite chat_run in H. exact H.
  - intros calls cfg sid log0.
    destruct (chats_run_count calls (Agent.init cfg sid) log0) as [H1 H2].
    split; [exact H1|]. rewrite H2. cbn. lia.
Qed.

(** ** The history used as prompt context *)

Section Formatted.
Import Py.

Lemma string_app_assoc (a b c : string) : (a +:+ b) +:+ c = a +:+ (b +:+ c).
Proof.
  induction a as [|x a IH]; [done|].
  change (String x ((a +:+ b) +:+ c) = String x (a +:+ (b +:+ c))).
  by rewrite IH.
Qed.

Lemma string_app_nil_r (a : string) : a +:+ "" = a.
Proof.
  induction a as [|x a IH]; [done|].
  change (String x (a +:+ "") = String x a). by rewrite IH.
Qed.

Lemma format_fold_acc (l : list BaseMessage) (acc : string) :
  fold_left (fun h m => h +:+ MemoryManager.format_message m) l acc
    = acc +:+ fold_left (fun h m => h +:+ MemoryManager.format_message m) l "".
Proof.
  revert acc. induction l as [|m l IH]; intros acc; cbn [fold_left].
  - by rewrite string_app_nil_r.
  - rewrite (IH (acc +:+ _)), (IH ("" +:+ _)). cbn [String.append].
    by rewrite string_app_assoc.
Qed.

(** Every message of the memory is rendered, whatever the window. *)
Lemma get_formatted_history_app (mm mm' : ConversationMemoryManager)
    (l : list BaseMessage) :
  chat_memory_messages (memory mm') = chat_memory_messages (memory mm) ++ l ->
  MemoryManager.get_formatted_history mm' =
    MemoryManager.get_formatted_history mm
    +:+ fold_left (fun h m => h +:+ MemoryManager.format_message m) l "".
Proof.
  intros H. unfold MemoryManager.get_formatted_history,
    MemoryManager.get_conversation_history.
  by rewrite H, fold_left_app, format_fold_acc.
Qed.

Lemma chat_formatted env self query log :
  let out := Agent.chat env self query log in
  MemoryManager.get_formatted_history (memory_manager (snd (fst out)))
    = MemoryManager.get_formatted_history (memory_manager self)
      +:+ ("Human: " +:+ query +:+ nl)
      +:+ ("Assistant: " +:+ res_response (fst (fst out)) +:+ nl) /\
  length (MemoryManager.get_conversation_history (memory_manager (snd (fst out))))
    = length (MemoryManager.get_conversation_history (memory_manager self)) + 2.
Proof.
  cbv zeta. rewrite chat_run. cbv zeta. cbn [fst snd res_response]. split.
  - erewrite get_formatted_history_app; [|reflexivity].
    cbn [fold_left MemoryManager.format_message String.append]. reflexivity.
  - unfold MemoryManager.get_conversation_history.
    cbn [memory_manager memory chat_memory_messages].
    rewrite length_app. cbn [length]. lia.
Qed.

Lemma chats_formatted calls self log :
  let out := Agent.chats calls self log in
  MemoryManager.get_formatted_history (memory_manager (snd (fst out)))
    = MemoryManager.get_formatted_history (memory_manager self)
      +:+ transcript (map snd calls) (fst (fst out)) /\
  length (MemoryManager.get_conversation_history (memory_manager (snd (fst out))))
    = length (MemoryManager.get_conversation_history (memory_manager self))
      + 2 * length calls.
Proof.
  revert self log. induction calls as [|[env query] calls IH]; intros self log.
  - cbn. rewrite string_app_nil_r. split; [done|lia].
  - rewrite chats_cons. cbv zeta. cbn [fst snd map transcript length].
    destruct (IH (snd (fst (Agent.chat env self query log)))
                 (snd (Agent.chat env self query log))) as [IH1 IH2].
    destruct (chat_formatted env self query log) as [C1 C2].
    rewrite IH1, IH2, C1, C2. split; [|lia].
    by rewrite !string_app_assoc.
Qed.

End Formatted.

(** C6 (what the code does).  The history text handed to the prompts renders
    every message the agent ever appended: after any number of calls it is
    the previous text followed by the whole transcript of these calls, and
    the window of the settings plays no part.  After eleven calls with the
    default window of 10 it holds 22 messages and still starts with the first
    turn, while the windowed view returned by [get_memory_variables] holds
    20. *)
Theorem C6_formatted_history_keeps_every_turn
    (calls : list (Env * string)) (self : ChatAgent) (log : list Event) :
  let out := Agent.chats calls self log in
  let self11 := snd (fst (Agent.chats Scenario.calls11 Scenario.agent0 [])) in
  MemoryManager.get_formatted_history (memory_manager (snd (fst out)))
    = MemoryManager.get_formatted_history (memory_manager self)
      +:+ transcript (map snd calls) (fst (fst out)) /\
  length (MemoryManager.get_conversation_history (memory_manager (snd (fst out))))
    = length (MemoryManager.get_conversation_history (memory_manager self))
      + 2 * length calls /\
  mem_k (memory (memory_manager self11)) = 10%Z /\
  length (MemoryManager.get_conversation_history (memory_manager self11)) = 22 /\
  String.prefix ("Human: q1" +:+ Py.nl +:+ "Assistant: direct answer" +:+ Py.nl)
    (MemoryManager.get_formatted_history (memory_manager self11)) = true /\
  length (MemoryManager.get_memory_variables (memory_manager self11)) = 20.
Proof.
  intros out self11.
  destruct (chats_formatted calls self log) as [H1 H2].
  split; [exact H1|]. split; [exact H2|].
  vm_compute. repeat split; reflexivity.
Qed.

(** ** Sessions behind the HTTP endpoint *)

Section Sessions.

Lemma chat_result_any_log env self query log :
  fst (fst (Agent.chat env self query log)) = fst (fst (Agent.chat env self query [])).
Proof. by rewrite !chat_run. Qed.

Lemma chat_endpoint_run env store request log :
  let out := Api.chat_endpoint env store request log in
  fst (fst out) = answer_from_scratch (env, request) /\ snd (fst out) = store.
Proof.
  cbv zeta. unfold Api.chat_endpoint, answer_from_scratch, bind, ret. cbn [fst snd].
  rewrite <- chat_result_any_log with (log := log).
  by destruct (Agent.chat env _ _ log).
Qed.

Lemma serve_cons env request requests store log :
  Api.serve ((env, request) :: requests) store log =
    let step := Api.chat_endpoint env store request log in
    let tail := Api.serve requests (snd (fst step)) (snd step) in
    ((fst (fst step) :: fst (fst tail), snd (fst tail)), snd tail).
Proof.
  cbn [Api.serve]. unfold bind at 1 2. unfold ret.
  destruct (Api.chat_endpoint env store request log) as [[r s] l]. cbn [fst snd].
  by destruct (Api.serve requests s l) as [[rs s'] l'].
Qed.

Lemma serve_run requests store log :
  let out := Api.serve requests store log in
  fst (fst out) = map answer_from_scratch requests /\ snd (fst out) = store.
Proof.
  revert log. induction requests as [|[env request] requests IH]; intros log; [done|].
  rewrite serve_cons. cbv zeta. cbn [fst snd map].
  destruct (chat_endpoint_run env store request log) as [H1 H2].
  rewrite H1, H2.
  destruct (IH (snd (Api.chat_endpoint env store request log))) as [IH1 IH2].
  by rewrite IH1, IH2.
Qed.

(** The workflow starts with the routing call, on the history it was given. *)
Lemma graph_invoke_starts env state :
  exists evs,
    snd (Agent.graph_invoke env state []) =
      [EvCollectionInfo;
       EvLLM (Agent.routing_prompt_format (st_query state) (st_chat_history state)
                (fst (DocumentAgent.has_documents env [])))] ++ evs.
Proof.
  unfold Agent.graph_invoke, bind. rewrite route_query_run. cbv zeta.
  destruct (match llm_invoke env _ with Ok reply => Agent.classify reply | Raise _ => RDirect end).
  - rewrite search_node_run.
    rewrite (external_snd _ _ (external_combine_results_node env _)).
    rewrite <- app_assoc. by eexists.
  - rewrite document_node_run.
    rewrite (external_snd _ _ (external_combine_results_node env _)).
    rewrite <- app_assoc. by eexists.
  - destruct (Agent.both_node env state _) as [st l] eqn:E.
    pose proof (external_snd _ ([] ++ [EvCollectionInfo; EvLLM
       (Agent.routing_prompt_format (st_query state) (st_chat_history state)
          (fst (DocumentAgent.has_documents env [])))]) (external_both_node env state)) as Hb.
    rewrite E in Hb. cbn [snd] in Hb. subst l.
    rewrite (external_snd _ _ (external_combine_results_node env _)).
    rewrite <- app_assoc. by eexists.
  - rewrite (external_snd _ _ (external_direct_response_node env _)). by eexists.
Qed.

End Sessions.

(** C3 (what the code does).  [POST /chat] builds a new agent, with an empty
    memory, for every request and never writes the session store: each
    request of a sequence is answered exactly as if it were the first one of
    its session, its routing prompt is built on the empty history, and the
    store is left as it was.  For two requests of session "s1" the second
    routing prompt still has an empty "Chat History". *)
Theorem C3_chat_endpoint_starts_from_empty_history
    (requests : list (Env * ChatRequest))
    (memory_store : gmap string ConversationMemoryManager) (log : list Event) :
  let out := Api.serve requests memory_store log in
  fst (fst out) = map answer_from_scratch requests /\
  snd (fst out) = memory_store /\
  (forall (cfg : Settings) (sid : string),
     MemoryManager.get_formatted_history (memory_manager (Agent.init cfg sid)) = "") /\
  (forall (env : Env) (request : ChatRequest) (log0 : list Event),
     exists evs : list Event,
       snd (Api.chat_endpoint env memory_store request log0) =
         log0 ++
         [EvCollectionInfo;
          EvLLM (Agent.routing_prompt_format (req_query request) ""
                   (fst (DocumentAgent.has_documents env [])))] ++ evs) /\
  snd (Api.serve Scenario.requests2 MemoryStore.init []) =
    [EvCollectionInfo;
     EvLLM (Agent.routing_prompt_format "My name is Ada" "" false);
     EvLLM (Agent.direct_prompt "" "My name is Ada");
     EvAddUserMessage "My name is Ada";
     EvAddAIMessage "direct answer";
     EvCollectionInfo;
     EvLLM (Agent.routing_prompt_format "What is my name?" "" false);
     EvLLM (Agent.direct_prompt "" "What is my name?");
     EvAddUserMessage "What is my name?";
     EvAddAIMessage "direct answer"] /\
  Api.get_sessions default_settings
    (snd (fst (Api.serve Scenario.requests2 MemoryStore.init []))) = [].
Proof.
  intros out. destruct (serve_run requests memory_store log) as [H1 H2].
  split; [exact H1|]. split; [exact H2|]. split; [reflexivity|]. split.
  - intros env request log0. unfold Api.chat_endpoint, bind, ret.
    rewrite chat_run. cbv zeta. cbn [fst snd].
    destruct (graph_invoke_starts env
                (Agent.initial_state (req_query request)
                   (MemoryManager.get_formatted_history
                      (memory_manager (Agent.init (settings env) (req_session_id request))))))
      as [evs Hevs].
    unfold graph_events. rewrite Hevs. cbn [st_query st_chat_history Agent.initial_state].
    eexists. rewrite <- !app_assoc. reflexivity.
  - split; [vm_compute; reflexivity|].
    destruct (serve_run Scenario.requests2 MemoryStore.init []) as [_ ->].
    reflexivity.
Qed.

(** ** The scenarios of the specification, run end to end *)

(** A weather question with no document uploaded is routed to Search and
    answered with web sources only. *)
Example scenario_weather :
  let env := Scenario.mk_env (Scenario.llm_fixed (Ok "SEARCH"))
               (Ok [Scenario.hit_paris; Scenario.hit_paris; Scenario.hit_paris])
               (Ok []) in
  let res := fst (fst (Agent.chat env Scenario.agent0
                         "What's the weather in Paris today?" [])) in
  fst (Agent.route_query env
         (Agent.initial_state "What's the weather in Paris today?" "") []) = RSearch /\
  length (res_sources res) = 3 /\
  forallb is_web_source (res_sources res) = true /\
  res_response res = "combined answer".
Proof. vm_compute. repeat split; reflexivity. Qed.

(** A question about an uploaded report, with one chunk scored 0.3. *)
Example scenario_report :
  let env := Scenario.mk_env (Scenario.llm_fixed (Ok "DOCUMENTS")) (Ok [])
               (Ok [(Scenario.chunk 0, 0.3%float)]) in
  let res := fst (fst (Agent.chat env Scenario.agent0
                         "Summarize the uploaded report" [])) in
  res_sources res
    = [DocSource "report.pdf" 0 ".pdf" 0.3%float "Quarterly revenue grew."] /\
  res_success res = true.
Proof. vm_compute. repeat split; reflexivity. Qed.

(** Clearing a conversation empties the summary, also when done twice. *)
Example clear_twice (self : ChatAgent) :
  message_count (Agent.get_conversation_summary (Agent.clear_conversation self)) = 0 /\
  message_count (Agent.get_conversation_summary
                   (Agent.clear_conversation (Agent.clear_conversation self))) = 0.
Proof. split; reflexivity. Qed.

(** * Further properties of the code *)

(** ** The session store *)

(** X1.  [get_session_memory] is a get-or-create: the manager it returns is
    the one filed under the identifier afterwards (the existing one, or a new
    empty one), the other sessions are untouched, the identifier is active
    afterwards, and asking again returns the same manager and changes
    nothing. *)
Theorem X1_get_session_memory_get_or_create
    (cfg : Settings) (store : gmap string ConversationMemoryManager)
    (sid : string) :
  let r := MemoryStore.get_session_memory cfg store sid in
  snd r !! sid = Some (fst r) /\
  fst r = default (MemoryManager.init cfg sid) (store !! sid) /\
  delete sid (snd r) = delete sid store /\
  (sid ∈ MemoryStore.get_active_sessions (snd r)) /\
  MemoryStore.get_session_memory cfg (snd r) sid = r.
Proof.
  unfold MemoryStore.get_session_memory, MemoryStore.get_active_sessions.
  destruct (store !! sid) as [mm|] eqn:E; cbn [fst snd default].
  - rewrite E. repeat split; try done.
    apply list_elem_of_fmap. exists (sid, mm). split; [done|].
    by apply elem_of_map_to_list.
  - rewrite lookup_insert_eq. repeat split; try done.
    + by rewrite delete_insert_eq.
    + apply list_elem_of_fmap. exists (sid, MemoryManager.init cfg sid). split; [done|].
      apply elem_of_map_to_list. by rewrite lookup_insert_eq.
Qed.

(** X2.  [clear_session] removes the session and nothing else; clearing an
    unknown session, or clearing twice, changes nothing more; and the next
    get-or-create for the identifier starts from an empty memory. *)
Theorem X2_clear_session_forgets
    (cfg : Settings) (store : gmap string ConversationMemoryManager)
    (sid : string) :
  let store' := MemoryStore.clear_session store sid in
  store' !! sid = None /\
  (sid ∉ MemoryStore.get_active_sessions store') /\
  (forall other : string, other <> sid -> store' !! other = store !! other) /\
  MemoryStore.clear_session store' sid = store' /\
  (store !! sid = None -> store' = store) /\
  fst (MemoryStore.get_session_memory cfg store' sid) = MemoryManager.init cfg sid /\
  message_count (MemoryManager.get_session_summary
                   (fst (MemoryStore.get_session_memory cfg store' sid))) = 0.
Proof.
  assert (Hdel : MemoryStore.clear_session store sid = delete sid store).
  { unfold MemoryStore.clear_session. destruct (store !! sid) eqn:E; [done|].
    by rewrite delete_id. }
  cbv zeta. rewrite Hdel.
  assert (Hnone : delete sid store !! sid = None) by apply lookup_delete_eq.
  split; [exact Hnone|]. split; [|split; [|split; [|split; [|split]]]].
  - unfold MemoryStore.get_active_sessions. intros Hin.
    apply list_elem_of_fmap in Hin as [[k v] [-> Hin]].
    apply elem_of_map_to_list in Hin. cbn [fst] in *. congruence.
  - intros other Hne. by rewrite lookup_delete_ne.
  - unfold MemoryStore.clear_session. by rewrite Hnone.
  - intros E. by rewrite delete_id.
  - unfold MemoryStore.get_session_memory. by rewrite Hnone.
  - unfold MemoryStore.get_session_memory. by rewrite Hnone.
Qed.

(** X2 on a store with two sessions. *)
Lemma X2_clear_session_witness :
  let store := snd (MemoryStore.get_session_memory default_settings
                      (snd (MemoryStore.get_session_memory default_settings
                              MemoryStore.init "a")) "b") in
  MemoryStore.clear_session store "a" !! "b"
    = Some (MemoryManager.init default_settings "b") /\
  MemoryStore.clear_session (MemoryStore.clear_session store "a") "zz"
    = MemoryStore.clear_session store "a".
Proof.
  intros store.
  pose proof (X2_clear_session_forgets default_settings store "a")
    as (_ & _ & Hother & _).
  pose proof (X2_clear_session_forgets default_settings
                (MemoryStore.clear_session store "a") "zz")
    as (_ & _ & _ & _ & Hmissing & _).
  split.
  - rewrite Hother; [|discriminate]. reflexivity.
  - apply Hmissing. reflexivity.
Defined.

Section Store.

Lemma active_lookup (store : gmap string ConversationMemoryManager) (sid : string) :
  sid ∈ MemoryStore.get_active_sessions store <-> is_Some (store !! sid).
Proof.
  unfold MemoryStore.get_active_sessions. split.
  - intros Hin. apply list_elem_of_fmap in Hin as [[k v] [-> Hin]].
    apply elem_of_map_to_list in Hin. by exists v.
  - intros [mm E]. apply list_elem_of_fmap. exists (sid, mm). split; [done|].
    by apply elem_of_map_to_list.
Qed.

Lemma get_session_memory_active cfg (store : gmap string ConversationMemoryManager) sid mm :
  store !! sid = Some mm ->
  MemoryStore.get_session_memory cfg store sid = (mm, store).
Proof. intros E. unfold MemoryStore.get_session_memory. by rewrite E. Qed.

Lemma store_wf_get cfg store sid :
  store_wf store -> store_wf (snd (MemoryStore.get_session_memory cfg store sid)).
Proof.
  intros Hwf. unfold MemoryStore.get_session_memory.
  destruct (store !! sid) eqn:E; cbn [snd]; [done|].
  intros sid' mm. destruct (decide (sid = sid')) as [<-|Hne].
  - rewrite lookup_insert_eq. by intros [= <-].
  - rewrite lookup_insert_ne by done. apply Hwf.
Qed.

Lemma store_wf_clear store sid :
  store_wf store -> store_wf (MemoryStore.clear_session store sid).
Proof.
  intros Hwf. unfold MemoryStore.clear_session.
  destruct (store !! sid) eqn:E; [|done].
  intros sid' mm. destruct (decide (sid = sid')) as [<-|Hne].
  - by rewrite lookup_delete_eq.
  - rewrite lookup_delete_ne by done. apply Hwf.
Qed.

End Store.

(** X3.  In a store whose sessions are filed under their own identifiers
    (as the empty store is, and as get-or-create and clear keep it),
    [GET /sessions] returns one summary per active session, in the order of
    the active identifiers and under these identifiers, each counting the
    messages of that session; and looking the sessions up for the listing
    does not create or change any. *)
Theorem X3_get_sessions_lists_the_active_sessions
    (cfg : Settings) (store : gmap string ConversationMemoryManager)
    (Hwf : store_wf store) :
  map summary_session_id (Api.get_sessions cfg store)
    = MemoryStore.get_active_sessions store /\
  length (Api.get_sessions cfg store) = size store /\
  (forall sid : string,
     sid ∈ MemoryStore.get_active_sessions store ->
     snd (MemoryStore.get_session_memory cfg store sid) = store) /\
  (forall (sid : string) (mm : ConversationMemoryManager),
     store !! sid = Some mm ->
     In {| summary_session_id := sid;
           message_count := length (_message_history mm);
           last_activity := entry_timestamp <$> last (_message_history mm) |}
        (Api.get_sessions cfg store)) /\
  store_wf MemoryStore.init /\
  (forall sid : string,
     store_wf (snd (MemoryStore.get_session_memory cfg store sid)) /\
     store_wf (MemoryStore.clear_session store sid)).
Proof.
  split; [|split; [|split; [|split; [|split]]]].
  - unfold Api.get_sessions. rewrite List.map_map.
    rewrite <- (List.map_id (MemoryStore.get_active_sessions store)) at 2.
    apply List.map_ext_in. intros sid Hin.
    apply list_elem_of_In, active_lookup in Hin as [mm E].
    rewrite (get_session_memory_active cfg store sid mm E). cbn.
    by apply Hwf.
  - unfold Api.get_sessions, MemoryStore.get_active_sessions.
    rewrite length_map, length_fmap. apply length_map_to_list.
  - intros sid Hin. apply active_lookup in Hin as [mm E].
    by rewrite (get_session_memory_active cfg store sid mm E).
  - intros sid mm E. unfold Api.get_sessions.
    apply List.in_map_iff. exists sid. split.
    + rewrite (get_session_memory_active cfg store sid mm E).
      unfold MemoryManager.get_session_summary. cbn [fst].
      by rewrite (Hwf sid mm E).
    + apply list_elem_of_In, active_lookup. by exists mm.
  - intros sid mm. unfold MemoryStore.init. by rewrite lookup_empty.
  - intros sid. split; [by apply store_wf_get|by apply store_wf_clear].
Qed.

(** X3 on the store holding the sessions "a" and "b". *)
Lemma X3_get_sessions_witness :
  let store := snd (MemoryStore.get_session_memory default_settings
                      (snd (MemoryStore.get_session_memory default_settings
                              MemoryStore.init "a")) "b") in
  length (Api.get_sessions default_settings store) = 2 /\
  map summary_session_id (Api.get_sessions default_settings store)
    = MemoryStore.get_active_sessions store.
Proof.
  intros store.
  assert (Hwf : store_wf store).
  { apply store_wf_get, store_wf_get. intros sid mm.
    unfold MemoryStore.init. by rewrite lookup_empty. }
  pose proof (X3_get_sessions_lists_the_active_sessions default_settings store Hwf)
    as (H1 & H2 & _).
  split; [|exact H1].
  rewrite H2. reflexivity.
Defined.

(** ** The conversation memory *)

Section Memory.

Lemma memory_inv_init cfg sid : memory_inv cfg sid (MemoryManager.init cfg sid).
Proof. split; [done|]. split; [constructor|]. by split. Qed.

Lemma memory_inv_clear cfg sid mm :
  memory_inv cfg sid mm -> memory_inv cfg sid (MemoryManager.clear_memory mm).
Proof. intros (_ & _ & H3 & H4). split; [done|]. split; [constructor|]. by split. Qed.

Lemma memory_inv_add_user cfg sid env mm message log :
  memory_inv cfg sid mm ->
  memory_inv cfg sid (fst (MemoryManager.add_user_message env mm message log)).
Proof.
  intros (H1 & H2 & H3 & H4). unfold memory_inv. cbn. split; [|split; [|by split]].
  - by rewrite !map_app, H1.
  - apply Forall_app. split; [done|]. constructor; [|constructor]. eauto.
Qed.

Lemma memory_inv_add_ai cfg sid env mm message log :
  memory_inv cfg sid mm ->
  memory_inv cfg sid (fst (MemoryManager.add_ai_message env mm message log)).
Proof.
  intros (H1 & H2 & H3 & H4). unfold memory_inv. cbn. split; [|split; [|by split]].
  - by rewrite !map_app, H1.
  - apply Forall_app. split; [done|]. constructor; [|constructor]. eauto.
Qed.

Lemma memory_inv_run_ops cfg sid env ops mm log :
  memory_inv cfg sid mm -> memory_inv cfg sid (fst (run_ops env ops mm log)).
Proof.
  revert mm log. induction ops as [|op ops IH]; intros mm log Hinv; [done|].
  destruct op as [message|message|]; cbn [run_ops].
  - unfold bind at 1.
    pose proof (memory_inv_add_user cfg sid env mm message log Hinv) as H.
    destruct (MemoryManager.add_user_message env mm message log) as [mm' log'].
    by apply IH.
  - unfold bind at 1.
    pose proof (memory_inv_add_ai cfg sid env mm message log Hinv) as H.
    destruct (MemoryManager.add_ai_message env mm message log) as [mm' log'].
    by apply IH.
  - by apply IH, memory_inv_clear.
Qed.

End Memory.

(** X4.  Whatever sequence of user appends, assistant appends and clears a
    memory manager goes through, its two records stay in step: the entries of
    [_message_history] have the types and contents of the messages of the
    conversation memory, in the same order, so the summary counts the
    messages of the conversation history; only human and assistant messages
    are stored; and the session identifier and the window are those the
    manager was created with. *)
Theorem X4_memory_records_stay_in_step
    (env : Env) (ops : list MemOp) (cfg : Settings) (sid : string)
    (log : list Event) :
  let mm := fst (run_ops env ops (MemoryManager.init cfg sid) log) in
  map entry_view (_message_history mm)
    = map message_view (MemoryManager.get_conversation_history mm) /\
  message_count (MemoryManager.get_session_summary mm)
    = length (MemoryManager.get_conversation_history mm) /\
  Forall (fun m => exists content,
            m = HumanMessage content \/ m = AIMessage content)
         (MemoryManager.get_conversation_history mm) /\
  summary_session_id (MemoryManager.get_session_summary mm) = sid /\
  mem_k (memory mm) = memory_window cfg.
Proof.
  intros mm.
  destruct (memory_inv_run_ops cfg sid env ops _ log (memory_inv_init cfg sid))
    as (H1 & H2 & H3 & H4).
  fold mm in H1, H2, H3, H4.
  unfold MemoryManager.get_conversation_history, MemoryManager.get_session_summary.
  cbn [message_count summary_session_id].
  split; [done|]. split; [|by split; [|split]].
  by rewrite <- (length_map entry_view), H1, length_map.
Qed.

(** X5.  After a [chat] call the summary's [last_activity] is the timestamp
    taken for the assistant message, the last effect of the call; and for any
    memory manager [last_activity] is absent exactly when no message is
    counted. *)
Theorem X5_last_activity_is_the_latest_append
    (env : Env) (self : ChatAgent) (query : string) (log : list Event) :
  let out := Agent.chat env self query log in
  last_activity (Agent.get_conversation_summary (snd (fst out)))
    = Some (clock env (length (snd out))) /\
  (forall mm : ConversationMemoryManager,
     last_activity (MemoryManager.get_session_summary mm) = None <->
     message_count (MemoryManager.get_session_summary mm) = 0).
Proof.
  cbv zeta. rewrite chat_run. cbv zeta. cbn [fst snd]. split.
  - unfold Agent.get_conversation_summary, MemoryManager.get_session_summary.
    cbn [last_activity memory_manager _message_history].
    rewrite last_app. cbn.
    rewrite !length_app. cbn [length]. do 2 f_equal. lia.
  - intros mm. unfold MemoryManager.get_session_summary.
    cbn [last_activity message_count].
    destruct (_message_history mm) as [|e l] using rev_ind; [done|].
    rewrite last_snoc, length_app. cbn. split; [done|lia].
Qed.

(** ** What the adapters do to their collaborators *)

Section AdapterEffects.
Import Py.

Lemma search_and_respond_run env query log :
  let hits := match tavily_search env query (max_search_results (settings env)) with
              | Ok results => results
              | Raise _ => []
              end in
  let prompt := SearchAgent.search_prompt_format query
                  (SearchAgent._format_search_results hits) in
  SearchAgent.search_and_respond env query log =
    match hits with
    | [] =>
        ({| success := false;
            response := "I couldn't find relevant information for your query. Please try rephrasing your question.";
            sources := [];
            documents_found := None;
            search_performed := None |},
         log ++ [EvTavilySearch query (max_search_results (settings env))])
    | _ =>
        (match llm_invoke env prompt with
         | Ok content =>
             {| success := true;
                response := strip content;
                sources := map SearchAgent.source_of_hit hits;
                documents_found := None;
                search_performed := Some true |}
         | Raise e =>
             {| success := false;
                response := "I encountered an error while searching: " +:+ e;
                sources := [];
                documents_found := None;
                search_performed := Some false |}
         end,
         log ++ [EvTavilySearch query (max_search_results (settings env)); EvLLM prompt])
    end.
Proof.
  cbv zeta. unfold SearchAgent.search_and_respond. unfold_m.
  rewrite perform_search_run.
  destruct (match tavily_search env query _ with Ok r => r | Raise _ => [] end)
    as [|h hs]; [done|].
  cbn. rewrite <- app_assoc. cbn. by destruct (llm_invoke env _).
Qed.

Lemma query_documents_run env query chat_history log :
  let matches := match chroma_search env query 5 with
                 | Ok results => results
                 | Raise _ => []
                 end in
  let kept := List.filter DocumentAgent.relevant matches in
  let prompt := DocumentAgent.document_prompt_format query
                  (DocumentAgent._prepare_context kept) chat_history in
  DocumentAgent.query_documents env query chat_history log =
    match matches, kept with
    | [], _ =>
        ({| success := true;
            response := "I don't have any relevant documents to answer your question. Please upload some documents first.";
            sources := [];
            documents_found := Some false;
            search_performed := None |},
         log ++ [EvSimilaritySearch query 5])
    | _, [] =>
        ({| success := true;
            response := "I couldn't find sufficiently relevant information in the uploaded documents to answer your question.";
            sources := [];
            documents_found := Some true;
            search_performed := None |},
         log ++ [EvSimilaritySearch query 5])
    | _, _ =>
        (match llm_invoke env prompt with
         | Ok content =>
             {| success := true;
                response := strip content;
                sources := map DocumentAgent.source_info kept;
                documents_found := Some true;
                search_performed := None |}
         | Raise e =>
             {| success := false;
                response := "Error accessing documents: " +:+ e;
                sources := [];
                documents_found := Some false;
                search_performed := None |}
         end,
         log ++ [EvSimilaritySearch query 5; EvLLM prompt])
    end.
Proof.
  cbv zeta. unfold DocumentAgent.query_documents. unfold_m.
  rewrite similarity_search_run.
  destruct (match chroma_search env query 5 with Ok r => r | Raise _ => [] end)
    as [|m ms]; [done|].
  cbn [fst snd].
  destruct (List.filter DocumentAgent.relevant (m :: ms)) as [|f fs] eqn:Hf; [done|].
  cbn. rewrite <- app_assoc. cbn.
  destruct (llm_invoke env _); [|done].
  by rewrite prepare_sources_map.
Qed.

End AdapterEffects.

(** X6.  The search adapter calls the provider exactly once and the model at
    most once, and only when the provider returned a hit; every source it
    returns is a web source, one per hit when it succeeds and none when it
    fails; and a provider error gives exactly the outcome and the effects of
    an answer without hits. *)
Theorem X6_search_adapter_effects (env : Env) (query : string) (log : list Event) :
  let out := SearchAgent.search_and_respond env query log in
  let hits := fst (SearchAgent._perform_search env query log) in
  let limit := max_search_results (settings env) in
  snd out =
    log ++ EvTavilySearch query limit ::
      match hits with
      | [] => []
      | _ => [EvLLM (SearchAgent.search_prompt_format query
                       (SearchAgent._format_search_results hits))]
      end /\
  Forall (fun s => is_web_source s = true) (sources (fst out)) /\
  length (sources (fst out)) = (if success (fst out) then length hits else 0) /\
  (forall e : string,
     tavily_search env query limit = Raise e ->
     out = ({| success := false;
               response := "I couldn't find relevant information for your query. Please try rephrasing your question.";
               sources := [];
               documents_found := None;
               search_performed := None |},
            log ++ [EvTavilySearch query limit])).
Proof.
  intros out hits limit. subst out hits limit.
  rewrite search_and_respond_run, perform_search_run. cbv zeta. cbn [fst].
  destruct (tavily_search env query (max_search_results (settings env)))
    as [[|h hs]|e0] eqn:Et.
  - cbn. split; [done|]. split; [constructor|]. split; [done|]. intros e; discriminate.
  - cbn [fst snd]. split; [done|].
    destruct (llm_invoke env _); cbn [fst sources success].
    + split; [|split; [by rewrite length_map|intros e'; discriminate]].
      apply Forall_forall. intros s Hs.
      apply list_elem_of_fmap in Hs as [hit [-> _]]. reflexivity.
    + split; [constructor|]. split; [done|intros e'; discriminate].
  - cbn. split; [done|]. split; [constructor|]. split; [done|]. by intros e _.
Qed.

(** X6 with the provider down. *)
Lemma X6_search_adapter_witness :
  SearchAgent.search_and_respond Scenario.env_both_search_down "weather" []
    = ({| success := false;
          response := "I couldn't find relevant information for your query. Please try rephrasing your question.";
          sources := [];
          documents_found := None;
          search_performed := None |},
       [EvTavilySearch "weather" 5]).
Proof.
  pose proof (X6_search_adapter_effects Scenario.env_both_search_down "weather" [])
    as (_ & _ & _ & H).
  apply (H "connection refused"). reflexivity.
Defined.



(** ** Scores that are not numbers *)

Section Scores.

Lemma ltb_not_nan (x y : float) :
  PrimFloat.ltb x y = true -> PrimFloat.is_nan x = false.
Proof.
  unfold PrimFloat.is_nan. rewrite FloatAxioms.ltb_spec, FloatAxioms.eqb_spec.
  unfold SFltb, SFeqb.
  destruct (Prim2SF x) as [s|s| |s m e]; cbn.
  - done.
  - by destruct s.
  - discriminate.
  - intros _. destruct s; rewrite Z.compare_refl, Pos.compare_cont_refl; done.
Qed.

End Scores.

(** X8.  Every document source the adapter returns carries a relevance
    score that is a number (not a NaN) and lies below 0.8: a match whose
    score is a NaN never passes the filter, whatever else the index
    returned. *)
Theorem X8_cited_scores_are_numbers_below_threshold
    (env : Env) (query chat_history : string) (log : list Event) :
  let r := fst (DocumentAgent.query_documents env query chat_history log) in
  Forall (fun s =>
            match s with
            | DocSource _ _ _ score _ =>
                PrimFloat.ltb score 0.8%float = true /\ PrimFloat.is_nan score = false
            | WebSource _ _ _ => False
            end) (sources r) /\
  (forall doc : Document, DocumentAgent.relevant (doc, PrimFloat.nan) = false).
Proof.
  intros r. split; [|reflexivity].
  pose proof (query_documents_sources env query chat_history log) as H.
  cbv zeta in H. fold r in H. rewrite H.
  destruct (success r); [|constructor].
  apply Forall_forall. intros s Hs.
  apply list_elem_of_fmap in Hs as [[doc score] [-> Hin]].
  apply list_elem_of_In, List.filter_In in Hin as [_ Hrel].
  cbn. split; [exact Hrel|]. exact (ltb_not_nan _ _ Hrel).
Qed.

(** ** What reaches the model *)

Section Containment.
Import Py.

Lemma string_cons_app (c : ascii) (a b : string) :
  String c a +:+ b = String c (a +:+ b).
Proof. reflexivity. Qed.

Lemma prefix_split (n h : string) :
  String.prefix n h = true <-> exists post, h = n +:+ post.
Proof.
  revert h. induction n as [|a n IH]; intros h.
  - rewrite prefix_nil. split; [|done]. intros _. by exists h.
  - destruct h as [|b h].
    + split; [done|]. intros [post H]. rewrite string_cons_app in H. discriminate.
    + cbn [String.prefix]. destruct (ascii_dec a b) as [->|Hne].
      * rewrite IH. split; intros [post H]; exists post.
        -- by rewrite string_cons_app, H.
        -- rewrite string_cons_app in H. by injection H.
      * split; [done|]. intros [post H]. rewrite string_cons_app in H.
        injection H as H1 _. congruence.
Qed.

(** [needle in hay] holds exactly when [hay] is some text, then [needle],
    then some text. *)
Lemma contains_split (n h : string) :
  contains n h = true <-> exists pre post, h = pre +:+ (n +:+ post).
Proof.
  induction h as [|b h IH].
  - cbn [contains]. rewrite orb_false_r, prefix_split. split.
    + intros [post H]. by exists "", post.
    + intros (pre & post & H). destruct pre as [|c pre]; [by exists post|].
      rewrite string_cons_app in H. discriminate.
  - cbn [contains]. rewrite orb_true_iff, prefix_split, IH. split.
    + intros [[post H]|(pre & post & H)].
      * by exists "", post.
      * exists (String b pre), post. by rewrite string_cons_app, H.
    + intros (pre & post & H). destruct pre as [|c pre].
      * left. by exists post.
      * right. rewrite string_cons_app in H. injection H as _ H.
        by exists pre, post.
Qed.

Lemma contains_here (n post : string) : contains n (n +:+ post) = true.
Proof. apply contains_split. by exists "", post. Qed.

Lemma contains_app_r (n a b : string) :
  contains n b = true -> contains n (a +:+ b) = true.
Proof.
  rewrite !contains_split. intros (pre & post & ->).
  exists (a +:+ pre), post. by rewrite string_app_assoc.
Qed.

Lemma contains_app_l (n a b : string) :
  contains n a = true -> contains n (a +:+ b) = true.
Proof.
  rewrite !contains_split. intros (pre & post & ->).
  exists pre, (post +:+ b). by rewrite !string_app_assoc.
Qed.

Lemma prepare_context_contains i docs doc score :
  In (doc, score) docs ->
  contains (page_content doc) (DocumentAgent._prepare_context_from i docs) = true.
Proof.
  revert i. induction docs as [|[d s] docs IH]; intros i Hin; [done|].
  cbn [DocumentAgent._prepare_context_from].
  destruct Hin as [[= -> ->]|Hin].
  - apply contains_app_l.
    do 8 apply contains_app_r. apply contains_here.
  - apply contains_app_r. by apply IH.
Qed.

Lemma format_search_results_contains i hits hit :
  In hit hits ->
  contains (default "No content available" (hit_content hit))
    (SearchAgent._format_search_results_from i hits) = true /\
  contains (default "Untitled" (hit_title hit))
    (SearchAgent._format_search_results_from i hits) = true.
Proof.
  revert i. induction hits as [|h hits IH]; intros i Hin; [done|].
  cbn [SearchAgent._format_search_results_from].
  destruct Hin as [->|Hin].
  - split; apply contains_app_l.
    + do 8 apply contains_app_r. apply contains_here.
    + do 2 apply contains_app_r. apply contains_here.
  - destruct (IH (i + 1)%Z Hin) as [H1 H2].
    split; by apply contains_app_r.
Qed.

End Containment.

(** X9.  When the document adapter asks the model, the prompt it sends holds
    the text of every chunk that passed the relevance filter, together with
    the query and the history text. *)
Theorem X9_document_prompt_holds_the_kept_chunks
    (env : Env) (query chat_history : string) (log : list Event)
    (doc : Document) (score : float)
    (Hkept : In (doc, score)
               (List.filter DocumentAgent.relevant
                  (fst (VectorStoreManager.similarity_search_with_score env query 5 log)))) :
  exists prompt : string,
    In (EvLLM prompt)
       (snd (DocumentAgent.query_documents env query chat_history log)) /\
    Py.contains (page_content doc) prompt = true /\
    Py.contains query prompt = true /\
    Py.contains chat_history prompt = true.
Proof.
  rewrite similarity_search_run in Hkept. cbn [fst] in Hkept.
  rewrite query_documents_run. cbv zeta.
  destruct (match chroma_search env query 5 with Ok r => r | Raise _ => [] end)
    as [|m ms]; [done|].
  destruct (List.filter DocumentAgent.relevant (m :: ms)) as [|f fs] eqn:Hf; [done|].
  eexists. split.
  - cbn [snd]. apply in_or_app. right. right. left. reflexivity.
  - unfold DocumentAgent.document_prompt_format. split; [|split].
    + do 6 apply contains_app_r. apply contains_app_l.
      by apply (prepare_context_contains 1 _ doc score).
    + do 9 apply contains_app_r. apply contains_here.
    + do 3 apply contains_app_r. apply contains_here.
Qed.

(** X9 on the matches scored 0.3, 0.8 and 0.5: the chunk scored 0.5 is in
    the prompt. *)
Lemma X9_document_prompt_witness :
  exists prompt : string,
    In (EvLLM prompt)
       (snd (DocumentAgent.query_documents Scenario.env_docs "revenue" "" [])) /\
    Py.contains "Quarterly revenue grew." prompt = true /\
    Py.contains "revenue" prompt = true /\
    Py.contains "" prompt = true.
Proof.
  apply (X9_document_prompt_holds_the_kept_chunks Scenario.env_docs "revenue" "" []
           (Scenario.chunk 2) 0.5%float).
  vm_compute. right. left. reflexivity.
Defined.

(** X10.  When the search adapter asks the model, the prompt holds the query
    and, for every hit of the provider, its content and its title (or the
    texts "No content available" and "Untitled" for a hit without them). *)
Theorem X10_search_prompt_holds_the_hits
    (env : Env) (query : string) (log : list Event) (hit : SearchHit)
    (Hhit : In hit (fst (SearchAgent._perform_search env query log))) :
  exists prompt : string,
    In (EvLLM prompt) (snd (SearchAgent.search_and_respond env query log)) /\
    Py.contains (default "No content available" (hit_content hit)) prompt = true /\
    Py.contains (default "Untitled" (hit_title hit)) prompt = true /\
    Py.contains query prompt = true.
Proof.
  rewrite perform_search_run in Hhit. cbn [fst] in Hhit.
  rewrite search_and_respond_run. cbv zeta.
  destruct (match tavily_search env query _ with Ok r => r | Raise _ => [] end)
    as [|h hs]; [done|].
  destruct (format_search_results_contains 1 (h :: hs) hit Hhit) as [H1 H2].
  eexists. split.
  - cbn [snd]. apply in_or_app. right. right. left. reflexivity.
  - unfold SearchAgent.search_prompt_format. split; [|split].
    + do 6 apply contains_app_r. by apply contains_app_l.
    + do 6 apply contains_app_r. by apply contains_app_l.
    + do 3 apply contains_app_r. apply contains_here.
Qed.

(** X10 on a provider answer with one hit. *)
Lemma X10_search_prompt_witness :
  exists prompt : string,
    In (EvLLM prompt)
       (snd (SearchAgent.search_and_respond Scenario.env_one_hit "weather" [])) /\
    Py.contains "Sunny" prompt = true /\
    Py.contains "Paris weather" prompt = true /\
    Py.contains "weather" prompt = true.
Proof.
  apply (X10_search_prompt_holds_the_hits Scenario.env_one_hit "weather" []
           Scenario.hit_paris).
  left. reflexivity.
Defined.

(** ** The workflow as a whole *)

Section Workflow.
Import Py CombineSpec.

(** The workflow, branch by branch, in terms of its nodes run on their own. *)
Lemma graph_invoke_run env state :
  let rp := Agent.routing_prompt_format (st_query state) (st_chat_history state)
              (fst (DocumentAgent.has_documents env [])) in
  let pre := [EvCollectionInfo; EvLLM rp] in
  Agent.graph_invoke env state [] =
    match fst (Agent.route_query env state []) with
    | RSearch =>
        let s := Agent.search_node env state [] in
        let c := Agent.combine_results_node env (fst s) [] in
        (fst c, pre ++ snd s ++ snd c)
    | RDocuments =>
        let d := Agent.document_node env state [] in
        let c := Agent.combine_results_node env (fst d) [] in
        (fst c, pre ++ snd d ++ snd c)
    | RBoth =>
        let s := Agent.search_node env state [] in
        let d := Agent.document_node env (fst s) [] in
        let c := Agent.combine_results_node env (fst d) [] in
        (fst c, pre ++ snd s ++ snd d ++ snd c)
    | RDirect =>
        let c := Agent.direct_response_node env state [] in
        (fst c, pre ++ snd c)
    end.
Proof.
  cbv zeta. unfold Agent.graph_invoke. unfold bind at 1.
  rewrite route_query_run. cbv zeta. cbn [fst app].
  destruct (match llm_invoke env _ with Ok reply => Agent.classify reply | Raise _ => RDirect end).
  - unfold bind.
    rewrite (proj1 (external_search_node env state) [_; _]).
    rewrite (proj1 (external_combine_results_node env _) (_ ++ _)).
    by rewrite <- app_assoc.
  - unfold bind.
    rewrite (proj1 (external_document_node env state) [_; _]).
    rewrite (proj1 (external_combine_results_node env _) (_ ++ _)).
    by rewrite <- app_assoc.
  - unfold Agent.both_node, bind.
    rewrite (proj1 (external_search_node env state) [_; _]).
    rewrite (proj1 (external_document_node env _) (_ ++ _)).
    unfold ret. cbn [fst snd].
    rewrite (proj1 (external_combine_results_node env _) (_ ++ _)).
    by rewrite <- !app_assoc.
  - by rewrite (proj1 (external_direct_response_node env state) [_; _]).
Qed.

Lemma count_events_app p l1 l2 :
  count_events p (l1 ++ l2) = count_events p l1 + count_events p l2.
Proof. unfold count_events. by rewrite List.filter_app, length_app. Qed.

Lemma count_search_node env state :
  let evs := snd (Agent.search_node env state []) in
  count_events is_llm evs <= 1 /\
  count_events is_provider_call evs = 1 /\
  count_events is_index_call evs = 0 /\
  count_events is_collection_info evs = 0.
Proof.
  cbv zeta. rewrite search_node_run. cbn [snd app].
  rewrite search_and_respond_run. cbv zeta.
  destruct (match tavily_search env _ _ with Ok r => r | Raise _ => [] end);
    cbn; lia.
Qed.

Lemma count_document_node env state :
  let evs := snd (Agent.document_node env state []) in
  count_events is_llm evs <= 1 /\
  count_events is_provider_call evs = 0 /\
  count_events is_index_call evs = 1 /\
  count_events is_collection_info evs = 0.
Proof.
  cbv zeta. rewrite document_node_run. cbn [snd app].
  rewrite query_documents_run. cbv zeta.
  destruct (match chroma_search env _ _ with Ok r => r | Raise _ => [] end);
    [cbn; lia|].
  destruct (List.filter _ _); cbn; lia.
Qed.

Lemma count_direct_response_node env state :
  let evs := snd (Agent.direct_response_node env state []) in
  count_events is_llm evs = 1 /\
  count_events is_provider_call evs = 0 /\
  count_events is_index_call evs = 0 /\
  count_events is_collection_info evs = 0.
Proof. cbv zeta. rewrite direct_response_node_run. cbn. lia. Qed.

Lemma count_combine_results_node env state :
  let evs := snd (Agent.combine_results_node env state []) in
  1 <= count_events is_llm evs <= 2 /\
  count_events is_provider_call evs = 0 /\
  count_events is_index_call evs = 0 /\
  count_events is_collection_info evs = 0.
Proof.
  cbv zeta. rewrite combine_results_node_run. cbv zeta.
  destruct (usable _ || usable _).
  - destruct (llm_invoke env _); [cbn; lia|].
    rewrite direct_response_node_run. cbn. lia.
  - rewrite direct_response_node_run. cbn. lia.
Qed.

End Workflow.

(** X11.  One [chat] call reads the collection information exactly once,
    calls the search provider at most once and the document index at most
    once, and calls the model at least twice (the routing call and the call
    that produces the answer) and at most five times. *)
Theorem X11_calls_per_chat_are_bounded
    (env : Env) (self : ChatAgent) (query : string) (log : list Event) :
  exists evs : list Event,
    snd (Agent.chat env self query log)
      = log ++ evs ++ [EvAddUserMessage query;
                       EvAddAIMessage
                         (res_response (fst (fst (Agent.chat env self query log))))] /\
    count_events is_collection_info evs = 1 /\
    count_events is_provider_call evs <= 1 /\
    count_events is_index_call evs <= 1 /\
    2 <= count_events is_llm evs <= 5.
Proof.
  exists (graph_events env self query).
  rewrite chat_run. cbv zeta. cbn [fst snd res_response].
  split; [by rewrite <- app_assoc|].
  unfold graph_events. rewrite graph_invoke_run. cbv zeta.
  set (st0 := Agent.initial_state query _).
  destruct (fst (Agent.route_query env st0 [])); cbn [snd];
    rewrite ?count_events_app.
  - destruct (count_search_node env st0) as (A1 & A2 & A3 & A4).
    destruct (count_combine_results_node env (fst (Agent.search_node env st0 [])))
      as (B1 & B2 & B3 & B4).
    cbv zeta in *. rewrite A2, A3, A4, B2, B3, B4. cbn. lia.
  - destruct (count_document_node env st0) as (A1 & A2 & A3 & A4).
    destruct (count_combine_results_node env (fst (Agent.document_node env st0 [])))
      as (B1 & B2 & B3 & B4).
    cbv zeta in *. rewrite A2, A3, A4, B2, B3, B4. cbn. lia.
  - destruct (count_search_node env st0) as (A1 & A2 & A3 & A4).
    destruct (count_document_node env (fst (Agent.search_node env st0 [])))
      as (D1 & D2 & D3 & D4).
    destruct (count_combine_results_node env
                (fst (Agent.document_node env (fst (Agent.search_node env st0 [])) [])))
      as (B1 & B2 & B3 & B4).
    cbv zeta in *. rewrite A2, A3, A4, D2, D3, D4, B2, B3, B4. cbn. lia.
  - destruct (count_direct_response_node env st0) as (A1 & A2 & A3 & A4).
    cbv zeta in *. rewrite A1, A2, A3, A4. cbn. lia.
Qed.

Section Answers.
Import Py CombineSpec.

Lemma search_sources_web env query log :
  Forall (fun s => is_web_source s = true)
         (sources (fst (SearchAgent.search_and_respond env query log))).
Proof.
  pose proof (search_and_respond_sources env query log) as H. cbv zeta in H.
  rewrite H. destruct (success _); [|constructor].
  apply Forall_forall. intros s Hs.
  apply list_elem_of_fmap in Hs as [hit [-> _]]. reflexivity.
Qed.

Lemma document_sources_doc env query chat_history log :
  Forall (fun s => is_doc_source s = true)
         (sources (fst (DocumentAgent.query_documents env query chat_history log))).
Proof.
  pose proof (query_documents_sources env query chat_history log) as H. cbv zeta in H.
  rewrite H. destruct (success _); [|constructor].
  apply Forall_forall. intros s Hs.
  apply list_elem_of_fmap in Hs as [[doc score] [-> _]]. reflexivity.
Qed.

Lemma sources_of_cases (r : ResultDict) :
  Agent.sources_of (Some r) = [] \/ Agent.sources_of (Some r) = sources r.
Proof. cbn. destruct (success r); auto. Qed.

(** The answer of the combine step on a state that holds no source yet:
    either the synthesis of the final prompt with the gathered sources, or an
    answer of the Direct branch without any source. *)
Lemma combine_answer_cases env st log :
  st_sources st = [] ->
  let out := fst (Agent.combine_results_node env st log) in
  (exists content,
     llm_invoke env
       (Agent.final_prompt_format (st_query st) (st_chat_history st)
          (usable_text (st_search_results st))
          (usable_text (st_document_results st))) = Ok content /\
     st_final_response out = strip content /\
     st_sources out = Agent.sources_of (st_search_results st)
                      ++ Agent.sources_of (st_document_results st))
  \/ st_sources out = [].
Proof.
  intros Hs. cbv zeta. rewrite combine_results_node_run. cbv zeta.
  destruct (usable _ || usable _).
  - destruct (llm_invoke env (Agent.final_prompt_format _ _ _ _)) as [content|e] eqn:E.
    + left. by exists content.
    + right. rewrite direct_response_node_run. cbn [fst].
      by destruct (llm_invoke env (Agent.direct_prompt _ _)).
  - right. rewrite direct_response_node_run. cbn [fst].
    by destruct (llm_invoke env (Agent.direct_prompt _ _)).
Qed.

(** The result of [chat] depends on the agent through its session identifier
    and the text of its history only. *)
Lemma chat_result_congr env self1 self2 query log1 log2 :
  session_id self1 = session_id self2 ->
  MemoryManager.get_formatted_history (memory_manager self1)
    = MemoryManager.get_formatted_history (memory_manager self2) ->
  fst (fst (Agent.chat env self1 query log1)) = fst (fst (Agent.chat env self2 query log2)).
Proof.
  intros Hs Hh. rewrite !chat_run. cbv zeta. cbn [fst].
  unfold graph_result. by rewrite Hs, Hh.
Qed.

End Answers.

(** X12.  When the router answers Direct (as it does when its own model call
    fails), the call consults neither the search provider nor the document
    index: after the routing call the only effect before the two appends is
    the model call of the Direct branch, the answer is its stripped reply (or
    the apology when it raises), and no source is returned. *)
Theorem X12_direct_route_consults_no_source
    (env : Env) (self : ChatAgent) (query : string) (log : list Event)
    (Hroute :
       fst (Agent.route_query env
              (Agent.initial_state query
                 (MemoryManager.get_formatted_history (memory_manager self))) log)
         = RDirect) :
  let hist := MemoryManager.get_formatted_history (memory_manager self) in
  let out := Agent.chat env self query log in
  let res := fst (fst out) in
  let rp := Agent.routing_prompt_format query hist
              (fst (DocumentAgent.has_documents env [])) in
  let dp := Agent.direct_prompt hist query in
  snd out = log ++ [EvCollectionInfo; EvLLM rp; EvLLM dp;
                    EvAddUserMessage query; EvAddAIMessage (res_response res)] /\
  res_sources res = [] /\
  res_response res = match llm_invoke env dp with
                     | Ok content => Py.strip content
                     | Raise _ => Agent.apology
                     end.
Proof.
  intros hist out res rp dp. subst out res.
  rewrite (external_fst _ log (external_route_query env _)) in Hroute.
  rewrite chat_run. cbv zeta. cbn [fst snd res_response res_sources].
  unfold graph_result, graph_events. rewrite graph_invoke_run. cbv zeta.
  rewrite Hroute. rewrite direct_response_node_run. cbv zeta. cbn [fst snd].
  fold hist. cbn [st_chat_history st_query Agent.initial_state]. fold rp dp.
  split; [by rewrite <- !app_assoc|].
  destruct (llm_invoke env dp); split; reflexivity.
Qed.

(** X12 on a greeting routed to Direct. *)
Lemma X12_direct_route_witness :
  snd (Agent.chat Scenario.env_direct Scenario.agent0 "hi" [])
    = [EvCollectionInfo;
       EvLLM (Agent.routing_prompt_format "hi" "" false);
       EvLLM (Agent.direct_prompt "" "hi");
       EvAddUserMessage "hi"; EvAddAIMessage "direct answer"].
Proof.
  pose proof (X12_direct_route_consults_no_source Scenario.env_direct Scenario.agent0
                "hi" [] eq_refl) as (H & _).
  exact H.
Defined.

(** X13.  The sources of every answer are web sources followed by document
    sources: the web part is empty or the whole source list of the search
    adapter, the document part is empty or the whole source list of the
    document adapter. *)
Theorem X13_web_sources_precede_document_sources
    (env : Env) (self : ChatAgent) (query : string) (log : list Event) :
  let hist := MemoryManager.get_formatted_history (memory_manager self) in
  let res := fst (fst (Agent.chat env self query log)) in
  let web := sources (fst (SearchAgent.search_and_respond env query [])) in
  let docs := sources (fst (DocumentAgent.query_documents env query hist [])) in
  exists web_part doc_part : list Source,
    res_sources res = web_part ++ doc_part /\
    (web_part = [] \/ web_part = web) /\
    (doc_part = [] \/ doc_part = docs) /\
    Forall (fun s => is_web_source s = true) web_part /\
    Forall (fun s => is_doc_source s = true) doc_part.
Proof.
  intros hist res web docs. subst res.
  rewrite chat_run. cbv zeta. cbn [fst res_sources].
  assert (Hweb := search_sources_web env query []).
  assert (Hdoc := document_sources_doc env query hist []).
  fold web in Hweb. fold docs in Hdoc.
  assert (Hnil : exists web_part doc_part : list Source,
            @nil Source = web_part ++ doc_part /\
            (web_part = [] \/ web_part = web) /\
            (doc_part = [] \/ doc_part = docs) /\
            Forall (fun s => is_web_source s = true) web_part /\
            Forall (fun s => is_doc_source s = true) doc_part).
  { exists [], []. repeat split; auto. }
  unfold graph_result. rewrite graph_invoke_run. cbv zeta. fold hist.
  set (st0 := Agent.initial_state query hist).
  destruct (fst (Agent.route_query env st0 [])); cbn [fst].
  - destruct (combine_answer_cases env (fst (Agent.search_node env st0 [])) [])
      as [(content & _ & _ & ->)| ->]; [by rewrite search_node_run| |exact Hnil].
    rewrite search_node_run. cbn [fst st_search_results st_document_results
      Agent.sources_of st_query st0 Agent.initial_state].
    fold web. exists (if success (fst (SearchAgent.search_and_respond env query []))
                      then web else []), [].
    destruct (success _); repeat split; auto.
  - destruct (combine_answer_cases env (fst (Agent.document_node env st0 [])) [])
      as [(content & _ & _ & ->)| ->]; [by rewrite document_node_run| |exact Hnil].
    rewrite document_node_run. cbn [fst st_search_results st_document_results
      Agent.sources_of st_query st_chat_history st0 Agent.initial_state app].
    fold docs. exists [], (if success (fst (DocumentAgent.query_documents env query hist []))
                          then docs else []).
    destruct (success _); repeat split; auto.
  - destruct (combine_answer_cases env
                (fst (Agent.document_node env (fst (Agent.search_node env st0 [])) [])) [])
      as [(content & _ & _ & ->)| ->];
      [by rewrite document_node_run, search_node_run| |exact Hnil].
    rewrite document_node_run, search_node_run.
    cbn [fst st_search_results st_document_results
      Agent.sources_of st_query st_chat_history st0 Agent.initial_state].
    fold web docs.
    exists (if success (fst (SearchAgent.search_and_respond env query []))
            then web else []),
           (if success (fst (DocumentAgent.query_documents env query hist []))
            then docs else []).
    destruct (success _), (success _); repeat split; auto.
  - rewrite direct_response_node_run. cbn [fst].
    destruct (llm_invoke env _); exact Hnil.
Qed.

(** X14.  An answer that comes with sources is always the stripped reply of
    the final synthesis call: the answers of the Direct branch, the apology
    among them, never carry a source. *)
Theorem X14_sources_come_with_a_synthesised_answer
    (env : Env) (self : ChatAgent) (query : string) (log : list Event)
    (Hsources : res_sources (fst (fst (Agent.chat env self query log))) <> []) :
  let hist := MemoryManager.get_formatted_history (memory_manager self) in
  let res := fst (fst (Agent.chat env self query log)) in
  exists search_info document_info content : string,
    llm_invoke env (Agent.final_prompt_format query hist search_info document_info)
      = Ok content /\
    res_response res = Py.strip content.
Proof.
  intros hist res. subst res. revert Hsources.
  rewrite chat_run. cbv zeta. cbn [fst res_sources res_response].
  unfold graph_result. rewrite graph_invoke_run. cbv zeta. fold hist.
  set (st0 := Agent.initial_state query hist).
  destruct (fst (Agent.route_query env st0 [])); cbn [fst].
  - destruct (combine_answer_cases env (fst (Agent.search_node env st0 [])) [])
      as [(content & Hllm & -> & _)| ->]; [by rewrite search_node_run| |done].
    intros _. rewrite search_node_run in Hllm. eauto.
  - destruct (combine_answer_cases env (fst (Agent.document_node env st0 [])) [])
      as [(content & Hllm & -> & _)| ->]; [by rewrite document_node_run| |done].
    intros _. rewrite document_node_run in Hllm. eauto.
  - destruct (combine_answer_cases env
                (fst (Agent.document_node env (fst (Agent.search_node env st0 [])) [])) [])
      as [(content & Hllm & -> & _)| ->];
      [by rewrite document_node_run, search_node_run| |done].
    intros _. rewrite document_node_run, search_node_run in Hllm. eauto.
  - rewrite direct_response_node_run. cbn [fst].
    by destruct (llm_invoke env _).
Qed.

(** X14 on a search with one hit. *)
Lemma X14_sources_witness :
  exists search_info document_info content : string,
    llm_invoke Scenario.env_one_hit
      (Agent.final_prompt_format "weather" "" search_info document_info) = Ok content /\
    res_response (fst (fst (Agent.chat Scenario.env_one_hit Scenario.agent0 "weather" [])))
      = Py.strip content.
Proof.
  apply (X14_sources_come_with_a_synthesised_answer Scenario.env_one_hit Scenario.agent0
           "weather" []).
  vm_compute. discriminate.
Defined.

(** X15.  Clearing forgets: after [clear_conversation] the agent answers any
    query exactly as an agent newly created for the same session would, and
    its summary counts the two messages of that call only. *)
Theorem X15_chat_after_clear_is_chat_from_scratch
    (env : Env) (cfg : Settings) (self : ChatAgent) (query : string)
    (log log' : list Event) :
  let cleared := Agent.clear_conversation self in
  fst (fst (Agent.chat env cleared query log))
    = fst (fst (Agent.chat env (Agent.init cfg (session_id self)) query log')) /\
  MemoryManager.get_formatted_history (memory_manager cleared) = "" /\
  message_count (Agent.get_conversation_summary cleared) = 0 /\
  message_count (Agent.get_conversation_summary
                   (snd (fst (Agent.chat env cleared query log)))) = 2.
Proof.
  cbv zeta. split; [|split; [|split]].
  - by apply chat_result_congr.
  - reflexivity.
  - reflexivity.
  - by rewrite chat_count.
Qed.

(** ** Uploads *)

Section Processor.
Import Py.

Lemma documents_from_lookup i0 file_path ext chunks (n : nat) :
  DocumentProcessor.documents_from i0 file_path ext chunks !! n =
    (fun chunk => {| page_content := chunk;
                     md_source := Some file_path;
                     md_chunk_id := Some (i0 + Z.of_nat n)%Z;
                     md_file_type := Some ext |}) <$> chunks !! n.
Proof.
  revert i0 n. induction chunks as [|c chunks IH]; intros i0 n; [done|].
  destruct n as [|n]; cbn [DocumentProcessor.documents_from].
  - cbn. by rewrite Z.add_0_r.
  - cbn [lookup list_lookup]. rewrite IH. cbn.
    destruct (chunks !! n); cbn; [|done]. do 3 f_equal. lia.
Qed.

Lemma documents_from_length i0 file_path ext chunks :
  length (DocumentProcessor.documents_from i0 file_path ext chunks) = length chunks.
Proof.
  revert i0. induction chunks as [|c chunks IH]; intros i0; [done|].
  cbn. by rewrite IH.
Qed.

(** The text [process_file] reads for a supported extension. *)
Lemma process_file_supported fs file_path ext :
  bool_decide (ext ∈ Api.allowed_extensions) = true ->
  exists read : Outcome string,
    (read = DocumentProcessor._extract_pdf_text fs file_path \/
     read = DocumentProcessor._extract_docx_text fs file_path \/
     read = DocumentProcessor._extract_txt_text fs file_path \/
     read = DocumentProcessor._extract_table_text fs file_path) /\
    DocumentProcessor.process_file fs file_path ext =
      match read with
      | Ok text => Ok (DocumentProcessor.documents_from 0 file_path ext (split_text fs text))
      | Raise e => Raise e
      end.
Proof.
  intros Hin. apply bool_decide_eq_true in Hin.
  unfold Api.allowed_extensions in Hin.
  unfold DocumentProcessor.process_file.
  repeat (apply elem_of_cons in Hin as [->|Hin]); [..|by apply elem_of_nil in Hin];
    cbn [String.eqb Ascii.eqb Bool.eqb].
  - eexists. split; [left; reflexivity|reflexivity].
  - eexists. split; [right; left; reflexivity|reflexivity].
  - eexists. split; [right; right; left; reflexivity|reflexivity].
  - rewrite bool_decide_eq_true_2 by set_solver.
    eexists. split; [right; right; right; reflexivity|reflexivity].
  - rewrite bool_decide_eq_true_2 by set_solver.
    eexists. split; [right; right; right; reflexivity|reflexivity].
Qed.

Lemma process_file_unsupported fs file_path ext :
  bool_decide (ext ∈ Api.allowed_extensions) = false ->
  DocumentProcessor.process_file fs file_path ext
    = Raise ("Unsupported file type: " +:+ ext).
Proof.
  intros Hin. apply bool_decide_eq_false in Hin.
  unfold Api.allowed_extensions in Hin.
  unfold DocumentProcessor.process_file.
  destruct (String.eqb_spec ext ".pdf") as [->|H1]; [exfalso; apply Hin; set_solver|].
  destruct (String.eqb_spec ext ".docx") as [->|H2]; [exfalso; apply Hin; set_solver|].
  destruct (String.eqb_spec ext ".txt") as [->|H3]; [exfalso; apply Hin; set_solver|].
  rewrite bool_decide_eq_false_2; [done|].
  intros Hcsv. apply Hin.
  do 3 (apply elem_of_cons; right). exact Hcsv.
Qed.

End Processor.



(** X17.  The upload endpoint and the processor agree on the file types: an
    extension outside the endpoint's allowed set makes [process_file] raise
    "Unsupported file type", and for an allowed extension [process_file]
    reads the file with one of its four extractors and fails only if that
    extractor does. *)
Theorem X17_allowed_extensions_are_the_supported_ones
    (fs : FileReaders) (file_path ext : string) :
  (bool_decide (ext ∈ Api.allowed_extensions) = false ->
   DocumentProcessor.process_file fs file_path ext
     = Raise ("Unsupported file type: " +:+ ext)) /\
  (bool_decide (ext ∈ Api.allowed_extensions) = true ->
   exists read : Outcome string,
     (read = DocumentProcessor._extract_pdf_text fs file_path \/
      read = DocumentProcessor._extract_docx_text fs file_path \/
      read = DocumentProcessor._extract_txt_text fs file_path \/
      read = DocumentProcessor._extract_table_text fs file_path) /\
     DocumentProcessor.process_file fs file_path ext =
       match read with
       | Ok text => Ok (DocumentProcessor.documents_from 0 file_path ext (split_text fs text))
       | Raise e => Raise e
       end).
Proof.
  split; [apply process_file_unsupported|apply process_file_supported].
Qed.

(** X17 on an executable and on a PDF. *)
Lemma X17_allowed_extensions_witness :
  DocumentProcessor.process_file readers0 "up/1_tool.exe" ".exe"
    = Raise "Unsupported file type: .exe" /\
  exists read : Outcome string,
    DocumentProcessor.process_file readers0 "up/1_paper.pdf" ".pdf" =
      match read with
      | Ok text => Ok (DocumentProcessor.documents_from 0 "up/1_paper.pdf" ".pdf"
                         (split_text readers0 text))
      | Raise e => Raise e
      end.
Proof.
  pose proof (X17_allowed_extensions_are_the_supported_ones readers0 "up/1_tool.exe" ".exe")
    as [H1 _].
  pose proof (X17_allowed_extensions_are_the_supported_ones readers0 "up/1_paper.pdf" ".pdf")
    as [_ H2].
  split.
  - apply H1. reflexivity.
  - destruct H2 as (read & _ & H); [reflexivity|]. by exists read.
Defined.

(** X18.  The table extractor chooses the reader by the literal end of the
    path: a file whose extension is ".csv" only after lower-casing (its path
    does not end in ".csv") is handed to the Excel reader, and the outcome of
    [process_file] is that reader's. *)
Theorem X18_csv_is_recognised_by_the_literal_suffix
    (fs : FileReaders) (file_path : string)
    (Hsuffix : Py.endswith file_path ".csv" = false) :
  DocumentProcessor.process_file fs file_path ".csv" =
    match read_excel fs file_path with
    | Ok table =>
        Ok (DocumentProcessor.documents_from 0 file_path ".csv"
              (split_text fs (("Data from " +:+ path_name fs file_path +:+ ":" +:+ Py.nl)
                              +:+ table)))
    | Raise e => Raise e
    end.
Proof.
  unfold DocumentProcessor.process_file, DocumentProcessor._extract_table_text.
  cbn [String.eqb Ascii.eqb Bool.eqb]. rewrite Hsuffix.
  rewrite bool_decide_eq_true_2 by set_solver.
  by destruct (read_excel fs file_path).
Qed.

(** X18 on an upload named DATA.CSV, with a reader that refuses what is not
    an Excel file. *)
Lemma X18_csv_witness :
  DocumentProcessor.process_file readers0 "up/1_DATA.CSV" ".csv"
    = Raise "not an Excel file".
Proof.
  rewrite (X18_csv_is_recognised_by_the_literal_suffix readers0 "up/1_DATA.CSV");
    reflexivity.
Defined.


(** ** The keyword test of the search adapter *)

Section Indicators.
Import Py RouterSpec.

Lemma to_lower_upper_char (c : ascii) : to_lower_char (upper_char c) = to_lower_char c.
Proof. destruct c as [[] [] [] [] [] [] [] []]; reflexivity. Qed.

Lemma lower_upper (s : string) : lower (upper s) = lower s.
Proof.
  induction s as [|c s IH]; [done|].
  cbn [upper lower]. by rewrite to_lower_upper_char, IH.
Qed.

Lemma lower_app (a b : string) : lower (a +:+ b) = lower a +:+ lower b.
Proof.
  induction a as [|c a IH]; [done|].
  rewrite string_cons_app. cbn [lower]. by rewrite IH.
Qed.

Lemma prefix_lower (kw s : string) :
  String.prefix (lower kw) (lower s) = prefix_ci kw s.
Proof.
  revert s. induction kw as [|a kw IH]; intros [|b s]; cbn [lower String.prefix prefix_ci];
    try done.
  rewrite <- IH. unfold same_letter.
  change (to_lower_char a) with (lower_char a).
  change (to_lower_char b) with (lower_char b).
  destruct (ascii_dec (lower_char a) (lower_char b)) as [E|E].
  - rewrite E. by rewrite Ascii.eqb_refl.
  - by rewrite (proj2 (Ascii.eqb_neq _ _) E).
Qed.

Lemma contains_lower (kw s : string) :
  contains (lower kw) (lower s) = contains_ci kw s.
Proof.
  induction s as [|b s IH].
  - change (String.prefix (lower kw) (lower "") || false = prefix_ci kw "" || false).
    by rewrite prefix_lower.
  - change (String.prefix (lower kw) (lower (String b s))
              || contains (lower kw) (lower s)
            = prefix_ci kw (String b s) || contains_ci kw s).
    by rewrite prefix_lower, IH.
Qed.

Lemma indicators_lower :
  Forall (fun indicator => lower indicator = indicator) SearchAgent.search_indicators.
Proof. unfold SearchAgent.search_indicators. repeat constructor. Qed.

End Indicators.


